(** * 4Runr Gateway SDK (Python): error taxonomy, retry pipeline, gateway client

    A shallow embedding of [runrgateway/errors.py], [runrgateway/utils/retry.py]
    and the token-freshness / dispatch part of [runrgateway/client.py].

    Conventions of the embedding:
    - Python [int] is [Z]; the retry count of [RetryOptions] is a [nat], and
      [with_retry_int] is the pipeline for any [int], negative ones included.
    - Python [float] values (delays in seconds, the draw of [random.random()])
      are idealised as exact rationals [Q]: neither rounding nor the
      [OverflowError] of converting a huge [2 ** attempt] is modelled.
    - Python [str] is [string] (its UTF-8 bytes); [None]-able values are
      [option]; values that come out of JSON are [PyVal].
    - A Python call either returns or raises: [PyResult].  What it raises is
      a Gateway error, another instance of [Exception], or an exception that
      [except Exception] does not catch. *)

From Stdlib Require Import ZArith QArith Qminmax Qpower List String Ascii Bool Lia Lqa.
From Stdlib Require Import DecimalString.
Import ListNotations.

Local Open Scope Z_scope.

(** ** Python values as they come out of [json.loads] *)

#[warnings="-register-all"]
Inductive PyVal : Type :=
| PyNone
| PyBool (b : bool)
| PyInt (z : Z)
| PyFloat (q : Q)
| PyStr (s : string)
| PyList (l : list PyVal)
| PyDict (kv : list (string * PyVal)).

(** ** errors.py *)
Module Errors.

(** The exception classes of errors.py, one constructor per class, with the
    arguments of the class's [__init__].  [GatewayErrorBase] is the base class
    [GatewayError] instantiated directly (the spec's Generic error). *)
Inductive GatewayError : Type :=
| GatewayErrorBase (message : PyVal) (status_code : option Z) (code : option string)
| GatewayAuthError (message : PyVal) (status_code : option Z)
| GatewayPolicyError (message : PyVal) (status_code : option Z)
| GatewayRateLimitError (message : PyVal) (retry_after : option Z) (status_code : option Z)
| GatewayUpstreamError (message : PyVal) (status_code : option Z)
| GatewayNetworkError (message : PyVal) (original_error : option string)
| GatewayTokenError (message : PyVal) (status_code : option Z).

(** [self.message] *)
Definition message (e : GatewayError) : PyVal :=
  match e with
  | GatewayErrorBase m _ _ | GatewayAuthError m _ | GatewayPolicyError m _
  | GatewayRateLimitError m _ _ | GatewayUpstreamError m _
  | GatewayNetworkError m _ | GatewayTokenError m _ => m
  end.

(** [self.status_code], as each [__init__] passes it to the base class *)
Definition status_code (e : GatewayError) : option Z :=
  match e with
  | GatewayErrorBase _ sc _ | GatewayAuthError _ sc | GatewayPolicyError _ sc
  | GatewayRateLimitError _ _ sc | GatewayUpstreamError _ sc
  | GatewayTokenError _ sc => sc
  | GatewayNetworkError _ _ => None
  end.

(** [self.code], the constant each subclass passes to the base class *)
Definition code (e : GatewayError) : option string :=
  match e with
  | GatewayErrorBase _ _ c => c
  | GatewayAuthError _ _ => Some "AUTH_ERROR"%string
  | GatewayPolicyError _ _ => Some "POLICY_ERROR"%string
  | GatewayRateLimitError _ _ _ => Some "RATE_LIMIT_ERROR"%string
  | GatewayUpstreamError _ _ => Some "UPSTREAM_ERROR"%string
  | GatewayNetworkError _ _ => Some "NETWORK_ERROR"%string
  | GatewayTokenError _ _ => Some "TOKEN_ERROR"%string
  end.

(** [self.retry_after], an attribute of [GatewayRateLimitError] only *)
Definition retry_after (e : GatewayError) : option Z :=
  match e with
  | GatewayRateLimitError _ ra _ => ra
  | _ => None
  end.

(** The variant of the tagged union (the class of the instance). *)
Inductive Kind := Generic | Auth | Policy | RateLimit | Upstream | Network | Token.

Definition kind (e : GatewayError) : Kind :=
  match e with
  | GatewayErrorBase _ _ _ => Generic
  | GatewayAuthError _ _ => Auth
  | GatewayPolicyError _ _ => Policy
  | GatewayRateLimitError _ _ _ => RateLimit
  | GatewayUpstreamError _ _ => Upstream
  | GatewayNetworkError _ _ => Network
  | GatewayTokenError _ _ => Token
  end.

(** What a call can raise: a Gateway error; an instance of another subclass
    of [Exception] (named by its class, e.g. [ValueError]); or an instance of
    [BaseException] that is no [Exception] ([KeyboardInterrupt], [SystemExit],
    [asyncio.CancelledError]), which no [except Exception] catches. *)
Inductive PyExn : Type :=
| GatewayExn (e : GatewayError)
| OtherExn (cls : string)
| BaseExn (cls : string).

Inductive PyResult (A : Type) : Type :=
| Return (a : A)
| Raise (e : PyExn).
Arguments Return {A} a.
Arguments Raise {A} e.

(** *** Strings *)

(** [str.lower()] on the ASCII letters; every other byte is kept.  Python
    lowers the letters of other scripts too; of those only U+0130 and U+212A
    give an ASCII letter ("i" followed by U+0307, and "k"), so the words
    the classifier looks for occur in the one text exactly when they occur
    in the other. *)
Definition lower_ascii (c : ascii) : ascii :=
  let n := nat_of_ascii c in
  if andb (Nat.leb 65 n) (Nat.leb n 90) then ascii_of_nat (n + 32) else c.

Fixpoint lower (s : string) : string :=
  match s with
  | EmptyString => EmptyString
  | String c r => String (lower_ascii c) (lower r)
  end.

(** [needle in hay] for two strings *)
Fixpoint contains (needle hay : string) : bool :=
  if String.prefix needle hay then true
  else match hay with
       | EmptyString => false
       | String _ r => contains needle r
       end.

(** *** [int(s)] for a string [s]

    A [string] holds the UTF-8 encoding of the Python [str].  [int] first
    rewrites a text that is not all ASCII
    ([_PyUnicode_TransformDecimalAndSpaceToASCII]): a code point below 127 is
    kept, a Unicode space becomes a blank, a Unicode decimal digit becomes
    its ASCII digit, and anything else makes the text unreadable.  The ASCII
    text is then read by [PyLong_FromString] in base 10: surrounding
    whitespace (tab, line feed, vertical tab, form feed, carriage return,
    space) is dropped, then an optional sign, then decimal digits in which
    single underscores may separate digits; more than 4300 digits are refused
    ([sys.int_max_str_digits] at its default).  [None] stands for the
    [ValueError] Python raises. *)
Definition is_space (c : ascii) : bool :=
  let n := nat_of_ascii c in
  orb (andb (Nat.leb 9 n) (Nat.leb n 13)) (Nat.eqb n 32).

(** [sys.int_max_str_digits], at its default *)
Definition int_max_str_digits : nat := 4300.

(** The digits of a numeral, underscores not counted. *)
Definition count_digits (s : list ascii) : nat :=
  List.length (filter (fun c => negb (Ascii.eqb c "_")) s).

Definition digit_of (c : ascii) : option Z :=
  let n := nat_of_ascii c in
  if andb (Nat.leb 48 n) (Nat.leb n 57) then Some (Z.of_nat (n - 48)) else None.

Fixpoint lstrip (s : list ascii) : list ascii :=
  match s with
  | c :: r => if is_space c then lstrip r else s
  | [] => []
  end.

Definition strip (s : list ascii) : list ascii :=
  rev (lstrip (rev (lstrip s))).

(** [digits acc after_digit s]: [after_digit] tells whether the previous
    character was a digit (an underscore is accepted only there, and the
    literal cannot end on one). *)
Fixpoint digits (acc : Z) (after_digit : bool) (s : list ascii) : option Z :=
  match s with
  | [] => if after_digit then Some acc else None
  | c :: r =>
      match digit_of c with
      | Some d => digits (10 * acc + d) true r
      | None =>
          if andb (Ascii.eqb c "_") after_digit
          then match r with
               | [] => None
               | _ => digits acc false r
               end
          else None
      end
  end.

(** The numeral after the sign *)
Definition numeral (r : list ascii) : option Z :=
  if Nat.ltb int_max_str_digits (count_digits r) then None else digits 0 false r.

(** [PyLong_FromString(text, base=10)] on ASCII text *)
Definition long_from_string (text : list ascii) : option Z :=
  match strip text with
  | "-"%char :: r => option_map Z.opp (numeral r)
  | "+"%char :: r => numeral r
  | r => numeral r
  end.

(** The code points of a UTF-8 text; [None] when the bytes are not the
    encoding of a [str] (a stray or missing continuation byte, an over-long
    form, a value above U+10FFFF). *)
Definition continuation (c : ascii) : option N :=
  let n := N_of_ascii c in
  if andb (128 <=? n)%N (n <? 192)%N then Some (n - 128)%N else None.

Definition in_range (lo hi cp : N) : option N :=
  if andb (lo <=? cp)%N (cp <=? hi)%N then Some cp else None.

Definition cons_point (cp : option N) (rest : option (list N)) : option (list N) :=
  match cp, rest with
  | Some c, Some r => Some (c :: r)
  | _, _ => None
  end.

Fixpoint code_points (bytes : list ascii) : option (list N) :=
  match bytes with
  | [] => Some []
  | b :: r =>
      let n := N_of_ascii b in
      if (n <? 128)%N then cons_point (Some n) (code_points r)
      else if andb (192 <=? n)%N (n <? 224)%N then
        match r with
        | c1 :: r1 =>
            match continuation c1 with
            | Some x1 =>
                cons_point (in_range 0x80 0x7FF ((n - 192) * 64 + x1)%N)
                  (code_points r1)
            | None => None
            end
        | _ => None
        end
      else if andb (224 <=? n)%N (n <? 240)%N then
        match r with
        | c1 :: c2 :: r2 =>
            match continuation c1, continuation c2 with
            | Some x1, Some x2 =>
                cons_point
                  (in_range 0x800 0xFFFF ((n - 224) * 4096 + x1 * 64 + x2)%N)
                  (code_points r2)
            | _, _ => None
            end
        | _ => None
        end
      else if andb (240 <=? n)%N (n <? 248)%N then
        match r with
        | c1 :: c2 :: c3 :: r3 =>
            match continuation c1, continuation c2, continuation c3 with
            | Some x1, Some x2, Some x3 =>
                cons_point
                  (in_range 0x10000 0x10FFFF
                     ((n - 240) * 262144 + x1 * 4096 + x2 * 64 + x3)%N)
                  (code_points r3)
            | _, _, _ => None
            end
        | _ => None
        end
      else None
  end.

(** [Py_UNICODE_ISSPACE] beyond ASCII *)
Definition unicode_spaces : list N :=
  [0x85; 0xA0; 0x1680; 0x2000; 0x2001; 0x2002; 0x2003; 0x2004; 0x2005; 0x2006;
   0x2007; 0x2008; 0x2009; 0x200A; 0x2028; 0x2029; 0x202F; 0x205F; 0x3000]%N.

Definition unicode_isspace (ch : N) : bool :=
  existsb (N.eqb ch) unicode_spaces.

(** The decimal digits beyond ASCII, in Unicode 14.0 (the character database
    of CPython 3.11): the code point of the zero of each script, whose digits
    one to nine follow it. *)
Definition decimal_zeros : list N :=
  [0x660; 0x6F0; 0x7C0; 0x966; 0x9E6; 0xA66; 0xAE6; 0xB66;
   0xBE6; 0xC66; 0xCE6; 0xD66; 0xDE6; 0xE50; 0xED0; 0xF20;
   0x1040; 0x1090; 0x17E0; 0x1810; 0x1946; 0x19D0; 0x1A80; 0x1A90;
   0x1B50; 0x1BB0; 0x1C40; 0x1C50; 0xA620; 0xA8D0; 0xA900; 0xA9D0;
   0xA9F0; 0xAA50; 0xABF0; 0xFF10; 0x104A0; 0x10D30; 0x11066; 0x110F0;
   0x11136; 0x111D0; 0x112F0; 0x11450; 0x114D0; 0x11650; 0x116C0; 0x11730;
   0x118E0; 0x11950; 0x11C50; 0x11D50; 0x11DA0; 0x16A60; 0x16AC0; 0x16B50;
   0x1D7CE; 0x1D7D8; 0x1D7E2; 0x1D7EC; 0x1D7F6; 0x1E140; 0x1E2F0; 0x1E950;
   0x1FBF0]%N.

(** [Py_UNICODE_TODECIMAL] beyond ASCII *)
Definition unicode_todecimal (ch : N) : option N :=
  match find (fun zero => andb (zero <=? ch)%N (ch <? zero + 10)%N) decimal_zeros with
  | Some zero => Some (ch - zero)%N
  | None => None
  end.

(** [_PyUnicode_TransformDecimalAndSpaceToASCII] on a text that is not all
    ASCII; [None] where the C code writes a question mark and stops, which
    no numeral survives. *)
Definition transform_char (ch : N) : option ascii :=
  if (ch <? 127)%N then Some (ascii_of_N ch)
  else if unicode_isspace ch then Some " "%char
  else option_map (fun d => ascii_of_N (48 + d)) (unicode_todecimal ch).

Fixpoint transform_decimal_and_space_to_ascii (text : list N) : option (list ascii) :=
  match text with
  | [] => Some []
  | ch :: r =>
      match transform_char ch, transform_decimal_and_space_to_ascii r with
      | Some c, Some r' => Some (c :: r')
      | _, _ => None
      end
  end.

(** [PyUnicode_IS_ASCII] *)
Definition is_ascii (bytes : list ascii) : bool :=
  forallb (fun b => (N_of_ascii b <? 128)%N) bytes.

Definition py_int (s : string) : option Z :=
  let bytes := list_ascii_of_string s in
  if is_ascii bytes then long_from_string bytes
  else
    match code_points bytes with
    | Some text =>
        match transform_decimal_and_space_to_ascii text with
        | Some ascii_text => long_from_string ascii_text
        | None => None
        end
    | None => None
    end.

(** [int(retry_after) if retry_after else None]: [None] and the empty string
    are false and give [None]; any other string goes through [int], whose
    [ValueError] nothing catches. *)
Definition retry_after_seconds (retry_after : option string) : PyResult (option Z) :=
  match retry_after with
  | None | Some EmptyString => Return None
  | Some s =>
      match py_int s with
      | Some n => Return (Some n)
      | None => Raise (OtherExn "ValueError")
      end
  end.

(** [error_message.lower()]: only a [str] has the method. *)
Definition py_lower (v : PyVal) : PyResult string :=
  match v with
  | PyStr s => Return (lower s)
  | _ => Raise (OtherExn "AttributeError")
  end.

(** [create_error_from_response(status_code, error_message, retry_after)] *)
Definition create_error_from_response
    (status_code : Z) (error_message : PyVal) (retry_after : option string)
  : PyResult GatewayError :=
  if orb (status_code =? 401) (status_code =? 403) then
    Return (GatewayAuthError error_message (Some status_code))
  else if status_code =? 429 then
    match retry_after_seconds retry_after with
    | Return seconds =>
        Return (GatewayRateLimitError error_message seconds (Some status_code))
    | Raise e => Raise e
    end
  else if status_code =? 400 then
    match py_lower error_message with
    | Raise e => Raise e
    | Return low =>
        if orb (contains "policy" low) (contains "scope" low) then
          Return (GatewayPolicyError error_message (Some status_code))
        else Return (GatewayErrorBase error_message (Some status_code) None)
    end
  else if orb (status_code =? 502) (orb (status_code =? 503) (status_code =? 504)) then
    Return (GatewayUpstreamError error_message (Some status_code))
  else
    Return (GatewayErrorBase error_message (Some status_code) None).

End Errors.

(** ** utils/retry.py *)
Module Retry.
Import Errors.

Local Open Scope Q_scope.

(** [RetryOptions]; the defaults are those of its [__init__]. *)
Record RetryOptions : Type := {
  max_retries : nat;
  base_delay : Q;
  max_delay : Q;
  jitter : bool
}.

Definition default_options : RetryOptions :=
  {| max_retries := 3; base_delay := 1; max_delay := 10; jitter := true |}.

(** [error.status_code and error.status_code >= 500] as a condition *)
Definition status_at_least_500 (e : GatewayError) : bool :=
  match status_code e with
  | Some sc => andb (negb (sc =? 0)%Z) (500 <=? sc)%Z
  | None => false
  end.

(** [error.code == "NETWORK_ERROR"] *)
Definition code_is_network (e : GatewayError) : bool :=
  match code e with
  | Some c => String.eqb c "NETWORK_ERROR"
  | None => false
  end.

(** [isinstance(error, GatewayRateLimitError)], [isinstance(error, GatewayUpstreamError)] *)
Definition isinstance_rate_limit (e : GatewayError) : bool :=
  match e with GatewayRateLimitError _ _ _ => true | _ => false end.

Definition isinstance_upstream (e : GatewayError) : bool :=
  match e with GatewayUpstreamError _ _ => true | _ => false end.

(** [is_retryable_error(error)] *)
Definition is_retryable_error (error : GatewayError) : bool :=
  if isinstance_rate_limit error then false
  else if code_is_network error then true
  else if isinstance_upstream error then true
  else if status_at_least_500 error then true
  else false.

(** Python's two-argument [min] and [max]: the first argument is kept unless
    the second is strictly smaller (resp. larger). *)
Definition py_min (a b : Q) : Q := if Qlt_le_dec b a then b else a.
Definition py_max (a b : Q) : Q := if Qlt_le_dec a b then b else a.

(** [2 ** attempt] *)
Definition pow2 (attempt : nat) : Q := inject_Z (2 ^ Z.of_nat attempt).

(** [calculate_delay(attempt, options)]; [r] is the value [random.random()]
    returns, drawn only when jitter is on. *)
Definition calculate_delay (attempt : nat) (options : RetryOptions) (r : Q) : Q :=
  let delay := py_min (base_delay options * pow2 attempt) (max_delay options) in
  if jitter options then
    let jitter := delay * (25 # 100) * (r - (5 # 10)) in
    py_max 0 (delay + jitter)
  else delay.

(** What one run of [with_retry] did besides running [fn]: how many times
    [fn] was invoked and the arguments of [asyncio.sleep], oldest first. *)
Record Trace : Type := { calls : nat; sleeps : list Q }.

(** [isinstance(error, GatewayError) and not is_retryable_error(error)] *)
Definition gives_up_on (error : PyExn) : bool :=
  match error with
  | GatewayExn e => negb (is_retryable_error e)
  | OtherExn _ => false
  | BaseExn _ => false
  end.

(** Whether [except Exception] catches the exception *)
Definition caught (error : PyExn) : bool :=
  match error with
  | GatewayExn _ => true
  | OtherExn _ => true
  | BaseExn _ => false
  end.

Section WithRetry.
Context {A S : Type}.
(** [fn()] followed, when it returns a coroutine, by awaiting it; [S] is
    whatever state the operation reads and changes. *)
Variable fn : S -> PyResult A * S.
Variable options : RetryOptions.
(** [rnd attempt]: the draw of [random.random()] in the delay computed after
    the failed attempt [attempt]. *)
Variable rnd : nat -> Q.
(** What [await asyncio.sleep(delay)] does to the state. *)
Variable sleep : Q -> S -> S.

Definition record_call (tr : Trace) : Trace :=
  {| calls := Datatypes.S (calls tr); sleeps := sleeps tr |}.

Definition record_sleep (delay : Q) (tr : Trace) : Trace :=
  {| calls := calls tr; sleeps := sleeps tr ++ [delay] |}.

(** The [for attempt in range(...)] loop over the attempt indices still to
    run, then the [raise last_error] after it. *)
Fixpoint retry_loop (attempts : list nat) (last_error : option PyExn)
    (s : S) (tr : Trace) : PyResult A * S * Trace :=
  match attempts with
  | [] =>
      (Raise (match last_error with
              | Some e => e
              | None => OtherExn "UnboundLocalError"
              end), s, tr)
  | attempt :: rest =>
      let (result, s1) := fn s in
      let tr1 := record_call tr in
      match result with
      | Return a => (Return a, s1, tr1)
      | Raise error =>
          if negb (caught error) then (Raise error, s1, tr1)
          else if Nat.eqb attempt (max_retries options) then (Raise error, s1, tr1)
          else if gives_up_on error then (Raise error, s1, tr1)
          else
            let delay := calculate_delay attempt options (rnd attempt) in
            retry_loop rest (Some error) (sleep delay s1) (record_sleep delay tr1)
      end
  end.

(** The operation on its own, as the pipeline drives it while it keeps
    retrying: the state in which invocation number [n] (counted from 0)
    starts, and what that invocation does. *)
Fixpoint state_before (n : nat) (s : S) : S :=
  match n with
  | O => s
  | Datatypes.S k =>
      sleep (calculate_delay k options (rnd k)) (snd (fn (state_before k s)))
  end.

Definition outcome (n : nat) (s : S) : PyResult A := fst (fn (state_before n s)).

Definition state_after (n : nat) (s : S) : S := snd (fn (state_before n s)).

(** The delays slept after the failed attempts [0 .. n-1]. *)
Definition delays (n : nat) : list Q :=
  map (fun i => calculate_delay i options (rnd i)) (seq 0 n).

End WithRetry.

(** [options = RetryOptions()] when the caller passes none *)
Definition resolve_options (options : option RetryOptions) : RetryOptions :=
  match options with
  | Some o => o
  | None => default_options
  end.

(** [with_retry(fn, options)] *)
Definition with_retry {A S : Type} (fn : S -> PyResult A * S)
    (options : option RetryOptions) (rnd : nat -> Q) (sleep : Q -> S -> S) (s : S)
  : PyResult A * S * Trace :=
  let options := resolve_options options in
  retry_loop fn options rnd sleep (seq 0 (max_retries options + 1)) None s
    {| calls := 0; sleeps := [] |}.


End Retry.

(** ** client.py *)
Module Client.
Import Errors Retry.

Local Open Scope string_scope.

(** *** Python helpers used by the client *)

(** [s.split(sep)] for a one-character separator *)
Fixpoint split_on (sep : ascii) (s : string) : list string :=
  match s with
  | EmptyString => [EmptyString]
  | String c r =>
      if Ascii.eqb c sep then EmptyString :: split_on sep r
      else match split_on sep r with
           | p :: ps => String c p :: ps
           | [] => [String c EmptyString]
           end
  end.

(** Truth value of a Python object, as [if token:] and [if not token:] use it *)
Definition py_truthy (v : PyVal) : bool :=
  match v with
  | PyNone => false
  | PyBool b => b
  | PyInt z => negb (z =? 0)%Z
  | PyFloat q => negb (Qeq_bool q 0)
  | PyStr EmptyString => false
  | PyStr _ => true
  | PyList [] => false
  | PyList _ => true
  | PyDict [] => false
  | PyDict _ => true
  end.

Fixpoint dict_lookup (key : string) (kv : list (string * PyVal)) : option PyVal :=
  match kv with
  | [] => None
  | (k, v) :: r => if String.eqb k key then Some v else dict_lookup key r
  end.

(** [key in container] for a string key; [None] is the [TypeError] of a
    container that supports no membership test. *)
Definition py_in (key : string) (container : PyVal) : option bool :=
  match container with
  | PyDict kv => Some (match dict_lookup key kv with Some _ => true | None => false end)
  | PyList l =>
      Some (existsb (fun v => match v with PyStr s => String.eqb s key | _ => false end) l)
  | PyStr s => Some (contains key s)
  | _ => None
  end.

(** [container[key]] for a string key; [None] is the [KeyError] or [TypeError]. *)
Definition py_getitem (container : PyVal) (key : string) : PyResult PyVal :=
  match container with
  | PyDict kv =>
      match dict_lookup key kv with
      | Some v => Return v
      | None => Raise (OtherExn "KeyError")
      end
  | _ => Raise (OtherExn "TypeError")
  end.

(** [d.get(key, default)]: only a dict has the method. *)
Definition py_get (d : PyVal) (key : string) (default : PyVal) : PyResult PyVal :=
  match d with
  | PyDict kv =>
      Return (match dict_lookup key kv with Some v => v | None => default end)
  | _ => Raise (OtherExn "AttributeError")
  end.

(** [f"{n}"] for an int *)
Definition str_of_int (n : Z) : string := NilZero.string_of_int (Z.to_int n).

(** *** The transport and the world the client acts on *)

(** The arguments of one [self._client.request(method, url, json=..., headers=...)] *)
Record Request : Type := {
  method : string;
  url : string;
  json : option PyVal;
  headers : list (string * string)
}.

(** What the client reads of an [httpx.Response] *)
Record Response : Type := {
  resp_status_code : Z;
  resp_content : string;
  resp_headers_get : string -> option string;
  resp_json : PyResult PyVal
}.

(** [response.is_success]: a 2xx status *)
Definition is_success (r : Response) : bool :=
  andb (200 <=? resp_status_code r)%Z (resp_status_code r <=? 299)%Z.

(** One call of the transport: a response, an [httpx.RequestError], or an
    exception of another class. *)
Inductive TransportOutcome : Type :=
| Responded (r : Response)
| RequestError (msg : string)
| TransportRaised (cls : string).

(** Everything observable the client has done so far: the requests handed to
    the transport, the backoff waits, the lines printed (oldest first). *)
Record World : Type := {
  sent : list Request;
  slept : list Q;
  printed : list string
}.

Definition log_request (req : Request) (w : World) : World :=
  {| sent := sent w ++ [req]; slept := slept w; printed := printed w |}.

Definition log_sleep (delay : Q) (w : World) : World :=
  {| sent := sent w; slept := slept w ++ [delay]; printed := printed w |}.

Definition log_print (line : string) (w : World) : World :=
  {| sent := sent w; slept := slept w; printed := printed w ++ [line] |}.

(** A coroutine of the client: it runs from a world, and returns or raises. *)
Definition M (A : Type) : Type := World -> PyResult A * World.

Definition ret {A} (a : A) : M A := fun w => (Return a, w).
Definition raise {A} (e : PyExn) : M A := fun w => (Raise e, w).
Definition bind {A B} (c : M A) (k : A -> M B) : M B :=
  fun w => match c w with
           | (Return a, w1) => k a w1
           | (Raise e, w1) => (Raise e, w1)
           end.
Definition lift {A} (r : PyResult A) : M A := fun w => (r, w).

Notation "x <- c ;; k" := (bind c (fun x => k))
  (at level 61, c at next level, right associativity).

(** The fields of a [GatewayClient] instance *)
Record GatewayClient : Type := {
  base_url : string;
  agent_id : string;
  agent_private_key_pem : string;
  default_intent : option string;
  timeout_ms : Z;
  current_intent : string
}.

(** [set_intent(intent)] *)
Definition set_intent (self : GatewayClient) (intent : string) : GatewayClient :=
  {| base_url := base_url self; agent_id := agent_id self;
     agent_private_key_pem := agent_private_key_pem self;
     default_intent := default_intent self; timeout_ms := timeout_ms self;
     current_intent := intent |}.

(** [TokenOptions] *)
Record TokenOptions : Type := {
  tools : list string;
  permissions : list string;
  ttl_minutes : Z
}.

(** 24 hours in milliseconds, the bound [24 * 60 * 60 * 1000] of [proxy] *)
Definition max_token_age_ms : Z := 24 * 60 * 60 * 1000.

Section Environment.
(** The libraries and the outside world, as the client calls them. *)

(** [self._client.request(...)], given what has happened so far *)
Variable transport : World -> Request -> TransportOutcome.
(** [int(time.time() * 1000)] *)
Variable clock_ms : World -> Z.
(** [''.join(random.choices(string.ascii_lowercase + string.digits, k=9))] *)
Variable random_suffix : World -> string.
(** [random.random()] as drawn after failed attempt [i] of a pipeline that
    started in the given world *)
Variable random_random : World -> nat -> Q.
(** [datetime.fromtimestamp(time.time() + seconds).isoformat()]; it raises
    ([OverflowError], [ValueError], [OSError]) when the sum is no float or the
    time is outside the years [datetime] holds. *)
Variable isoformat_in : World -> Z -> PyResult string.
(** [base64.b64decode(s).decode()]; [None] when either step raises *)
Variable b64decode_decode : string -> option string.
(** [json.loads(s)]; [None] when it raises *)
Variable json_loads : string -> option PyVal.
(** [json.dumps(v)] *)
Variable json_dumps : PyVal -> string.
(** The [data] field of the [ProxyResponse] that pydantic builds from the
    response's JSON, or the exception its validation raises *)
Variable proxy_response_data : PyVal -> PyResult PyVal.

(** [generate_correlation_id()] of utils/correlation.py *)
Definition generate_correlation_id (w : World) : string :=
  "req_" ++ str_of_int (clock_ms w) ++ "_" ++ random_suffix w.

(** [payload["iat"] * 1000] subtracted from the clock reading; [None] is the
    [TypeError] of an operand that is not a number. *)
Definition age_from_iat (now : Z) (iat : PyVal) : option Q :=
  match iat with
  | PyInt z => Some (inject_Z (now - z * 1000))
  | PyBool b => Some (inject_Z (now - (if b then 1 else 0) * 1000))
  | PyFloat q => Some (inject_Z now - q * inject_Z 1000)%Q
  | _ => None
  end.

(** [_get_token_age(token)]: every exception inside the [try] is swallowed
    by the bare [except] and the age is then 0. *)
Definition _get_token_age (w : World) (token : PyVal) : Q :=
  match token with
  | PyStr t =>
      let parts := split_on "." t in
      if (2 <=? List.length parts)%nat then
        match nth_error parts 1 with
        | Some part =>
            match b64decode_decode (part ++ "==") with
            | Some text =>
                match json_loads text with
                | Some payload =>
                    match py_in "iat" payload with
                    | Some true =>
                        match py_getitem payload "iat" with
                        | Return iat =>
                            match age_from_iat (clock_ms w) iat with
                            | Some age => age
                            | None => 0
                            end
                        | Raise _ => 0
                        end
                    | Some false => 0
                    | None => 0
                    end
                | None => 0
                end
            | None => 0
            end
        | None => 0
        end
      else 0
  | _ => 0
  end.

(** The closure [_request] of [_make_request] *)
Definition _request (req : Request) : M Response :=
  fun w =>
    let w1 := log_request req w in
    match transport w req with
    | RequestError msg =>
        (Raise (GatewayExn (GatewayErrorBase (PyStr ("Network error: " ++ msg))
                              None (Some "NETWORK_ERROR"))), w1)
    | TransportRaised cls => (Raise (OtherExn cls), w1)
    | Responded response =>
        if is_success response then (Return response, w1)
        else
          let error_data :=
            match resp_content response with
            | EmptyString => Return (PyDict [("error", PyStr "Unknown error")])
            | _ => resp_json response
            end in
          match error_data with
          | Raise e => (Raise e, w1)
          | Return d =>
              let retry_after := resp_headers_get response "Retry-After" in
              match py_get d "error"
                      (PyStr ("HTTP " ++ str_of_int (resp_status_code response))) with
              | Raise e => (Raise e, w1)
              | Return msg =>
                  match create_error_from_response
                          (resp_status_code response) msg retry_after with
                  | Return err => (Raise (GatewayExn err), w1)
                  | Raise e => (Raise e, w1)
                  end
              end
          end
    end.

(** [_make_request(path, method, json)] *)
Definition _make_request (self : GatewayClient) (path method : string)
    (json : option PyVal) : M Response :=
  fun w =>
    let url := base_url self ++ path in
    let correlation_id := generate_correlation_id w in
    let headers := [("X-Correlation-Id", correlation_id)] in
    let req := {| method := method; url := url; json := json; headers := headers |} in
    fst (with_retry (_request req) None (random_random w) log_sleep w).

(** [get_token(opts)] *)
Definition get_token (self : GatewayClient) (opts : TokenOptions) : M PyVal :=
  fun w =>
    match isoformat_in w (ttl_minutes opts * 60) with
    | Raise e => (Raise e, w)
    | Return expires_at =>
        (response <- _make_request self "/api/generate-token" "POST"
           (Some (PyDict [("agent_id", PyStr (agent_id self));
                          ("tools", PyList (map PyStr (tools opts)));
                          ("permissions", PyList (map PyStr (permissions opts)));
                          ("expires_at", PyStr expires_at)])) ;;
         data <- lift (resp_json response) ;;
         lift (py_getitem data "agent_token")) w
    end.

(** The token [proxy] and [proxy_async] go on with: the caller's, or a
    fresh one when none (or a false one) was given. *)
Definition token_or_fetch (self : GatewayClient) (tool : string)
    (agent_token : PyVal) : M PyVal :=
  if negb (py_truthy agent_token) then
    get_token self {| tools := [tool]; permissions := ["read"; "write"];
                      ttl_minutes := 10 |}
  else ret agent_token.

(** [proxy(tool, action, params, agent_token, proof_payload_override)] *)
Definition proxy (self : GatewayClient) (tool action : string) (params : PyVal)
    (agent_token : PyVal) (proof_payload_override : PyVal) : M PyVal :=
  token <- token_or_fetch self tool agent_token ;;
  _ <- (fun w =>
          if py_truthy token then
            if Qlt_le_dec (inject_Z max_token_age_ms) (_get_token_age w token)
            then (Raise (GatewayExn (GatewayTokenError
                           (PyStr "Token is too old (older than 24h)") None)), w)
            else (Return tt, w)
          else (Return tt, w)) ;;
  let body : list (string * PyVal) :=
    ([("agent_token", token); ("tool", PyStr tool); ("action", PyStr action);
      ("params", params)]
     ++ (match current_intent self with
         | EmptyString => []
         | i => [("intent", PyStr i)]
         end)
     ++ (if py_truthy proof_payload_override
         then [("proof_payload", PyStr (json_dumps proof_payload_override))]
         else []))%list in
  response <- _make_request self "/api/proxy-request" "POST" (Some (PyDict body)) ;;
  j <- lift (resp_json response) ;;
  data <- lift (proxy_response_data j) ;;
  _ <- (fun w =>
          match resp_headers_get response "X-Token-Rotation-Recommended" with
          | Some "true" =>
              (Return tt,
               log_print ("Token rotation recommended! Expires: " ++
                          match resp_headers_get response "X-Token-Expires-At" with
                          | Some e => e
                          | None => "None"
                          end) w)
          | _ => (Return tt, w)
          end) ;;
  ret data.

(** [proxy_async(tool, action, params, agent_token)] *)
Definition proxy_async (self : GatewayClient) (tool action : string) (params : PyVal)
    (agent_token : PyVal) : M PyVal :=
  token <- token_or_fetch self tool agent_token ;;
  let body : list (string * PyVal) :=
    ([("agent_token", token); ("tool", PyStr tool); ("action", PyStr action);
      ("params", params); ("async", PyBool true)]
     ++ (match current_intent self with
         | EmptyString => []
         | i => [("intent", PyStr i)]
         end))%list in
  response <- _make_request self "/api/proxy-request" "POST" (Some (PyDict body)) ;;
  data <- lift (resp_json response) ;;
  job_id <- lift (py_getitem data "job_id") ;;
  ret (PyDict [("job_id", job_id)]).

(** The [JobResponse] that pydantic builds from the response's JSON, or the
    exception its validation raises *)
Variable job_response : PyVal -> PyResult PyVal.

(** [get_job(job_id)] *)
Definition get_job (self : GatewayClient) (job_id : string) : M PyVal :=
  response <- _make_request self ("/api/jobs/" ++ job_id) "GET" None ;;
  j <- lift (resp_json response) ;;
  lift (job_response j).

(** The issue time a token carries, in seconds: the number under the key
    [iat] of the JSON object that the second dot-separated part of the
    token encodes in base64. *)
Definition embedded_iat (token : string) : option Q :=
  match split_on "." token with
  | _ :: part :: _ =>
      match b64decode_decode (part ++ "==") with
      | Some text =>
          match json_loads text with
          | Some (PyDict kv) =>
              match dict_lookup "iat" kv with
              | Some (PyInt z) => Some (inject_Z z)
              | Some (PyFloat q) => Some q
              | _ => None
              end
          | _ => None
          end
      | None => None
      end
  | _ => None
  end.

(** The token's issue time lies [age_ms] milliseconds before the clock
    reading in [w]. *)
Definition issued_before (w : World) (token : string) (age_ms : Q) : Prop :=
  exists iat, embedded_iat token = Some iat /\
              (inject_Z (clock_ms w) - iat * inject_Z 1000 == age_ms)%Q.

(** The token was handed to the transport: some request sent since [w]
    carries it as [agent_token]. *)
Definition token_sent (w w' : World) (token : string) : Prop :=
  exists req body before after,
    sent w' = (sent w ++ before ++ req :: after)%list /\
    json req = Some (PyDict body) /\
    dict_lookup "agent_token" body = Some (PyStr token).

(** The body [proxy] builds for a token. *)
Definition proxy_body (self : GatewayClient) (tool action : string)
    (params token proof_payload_override : PyVal) : list (string * PyVal) :=
  ([("agent_token", token); ("tool", PyStr tool); ("action", PyStr action);
    ("params", params)]
   ++ (match current_intent self with
       | EmptyString => []
       | i => [("intent", PyStr i)]
       end)
   ++ (if py_truthy proof_payload_override
       then [("proof_payload", PyStr (json_dumps proof_payload_override))]
       else []))%list.

(** The body [proxy_async] builds for a token. *)
Definition proxy_async_body (self : GatewayClient) (tool action : string)
    (params token : PyVal) : list (string * PyVal) :=
  ([("agent_token", token); ("tool", PyStr tool); ("action", PyStr action);
    ("params", params); ("async", PyBool true)]
   ++ (match current_intent self with
       | EmptyString => []
       | i => [("intent", PyStr i)]
       end))%list.

(** The body [get_token] builds once the expiry is formatted. *)
Definition token_request_body (self : GatewayClient) (opts : TokenOptions)
    (expires_at : string) : list (string * PyVal) :=
  [("agent_id", PyStr (agent_id self));
   ("tools", PyList (map PyStr (tools opts)));
   ("permissions", PyList (map PyStr (permissions opts)));
   ("expires_at", PyStr expires_at)].

(** What the second dot-separated part of a token decodes to, if it does. *)
Definition payload_of (token : string) : option PyVal :=
  match split_on "." token with
  | _ :: part :: _ =>
      match b64decode_decode (part ++ "==") with
      | Some text => json_loads text
      | None => None
      end
  | _ => None
  end.

(** The line [proxy] prints for a response that recommends rotation. *)
Definition rotation_notice (response : Response) : list string :=
  match resp_headers_get response "X-Token-Rotation-Recommended" with
  | Some "true" =>
      ["Token rotation recommended! Expires: " ++
       match resp_headers_get response "X-Token-Expires-At" with
       | Some e => e
       | None => "None"
       end]
  | _ => []
  end.

(** The request [_make_request] builds in world [w]. *)
Definition request_of (self : GatewayClient) (path method : string)
    (body : option PyVal) (w : World) : Request :=
  {| method := method; url := base_url self ++ path; json := body;
     headers := [("X-Correlation-Id",
                  generate_correlation_id w)] |}.

(** The world in which attempt number [k] (counted from 0) at [req] starts:
    [k] attempts made and a wait after each of them. *)
Definition before_attempts (req : Request) (rnd : nat -> Q) (k : nat) (w : World)
  : World :=
  {| sent := sent w ++ repeat req k;
     slept := slept w ++ delays default_options rnd k;
     printed := printed w |}.

(** The world after [n] attempts at [req] and the [n - 1] waits between them. *)
Definition after_attempts (req : Request) (rnd : nat -> Q) (n : nat) (w : World) : World :=
  {| sent := sent w ++ repeat req n;
     slept := slept w ++ delays default_options rnd (n - 1);
     printed := printed w |}.

End Environment.

(** The message [_request] hands to the classifier for a response that is
    not a success: the [error] member of the JSON body, with ["Unknown error"]
    for an empty body and ["HTTP <status>"] for a body without that member. *)
Definition error_message_of (r : Response) : PyResult PyVal :=
  match resp_content r with
  | EmptyString => Return (PyStr "Unknown error")
  | _ =>
      match resp_json r with
      | Return d => py_get d "error" (PyStr ("HTTP " ++ str_of_int (resp_status_code r)))
      | Raise e => Raise e
      end
  end.

(** [s.rstrip(c)] for a one-character argument: the trailing run of [c] goes. *)
Fixpoint rstrip_char (c : ascii) (s : string) : string :=
  match s with
  | EmptyString => EmptyString
  | String a r =>
      match rstrip_char c r with
      | EmptyString => if Ascii.eqb a c then EmptyString else String a EmptyString
      | r' => String a r'
      end
  end.

(** [GatewayClient.__init__]: the fields it sets (the [httpx.AsyncClient] it
    opens is the transport of the environment). *)
Definition __init__ (base_url agent_id agent_private_key_pem : string)
    (default_intent : option string) (timeout_ms : Z) : GatewayClient :=
  {| base_url := rstrip_char "/" base_url;
     agent_id := agent_id;
     agent_private_key_pem := agent_private_key_pem;
     default_intent := default_intent;
     timeout_ms := timeout_ms;
     current_intent := match default_intent with
                       | Some i => i
                       | None => EmptyString
                       end |}.




(** [headers.get(name)] on a header dict *)
Fixpoint header_get (name : string) (headers : list (string * string)) : option string :=
  match headers with
  | [] => None
  | (k, v) :: r => if String.eqb k name then Some v else header_get name r
  end.

(** [extract_correlation_id(headers)] of utils/correlation.py *)
Definition extract_correlation_id (headers : list (string * string)) : option string :=
  header_get "X-Correlation-Id" headers.

End Client.

(** ** Specification-side notions and test doubles *)
Module Spec.
Import Errors Retry.

Local Open Scope string_scope.

(** The letters of the alphabet: each capital with its small letter. *)
Definition letters : list (ascii * ascii) :=
  combine (list_ascii_of_string "ABCDEFGHIJKLMNOPQRSTUVWXYZ")
          (list_ascii_of_string "abcdefghijklmnopqrstuvwxyz").

(** A capital letter. *)
Definition is_capital (c : ascii) : bool :=
  existsb (fun p => Ascii.eqb (fst p) c) letters.

(** [a] and [b] are one character, or the two cases of one letter. *)
Definition same_letter (a b : ascii) : bool :=
  orb (Ascii.eqb a b)
      (existsb (fun p => orb (andb (Ascii.eqb (fst p) a) (Ascii.eqb (snd p) b))
                             (andb (Ascii.eqb (fst p) b) (Ascii.eqb (snd p) a)))
         letters).

(** Two texts that differ at most in the case of their letters. *)
Fixpoint same_ignoring_case (a b : string) : bool :=
  match a, b with
  | EmptyString, EmptyString => true
  | String x a', String y b' => andb (same_letter x y) (same_ignoring_case a' b')
  | _, _ => false
  end.

(** A text with no capital letter in it. *)
Definition small_case (s : string) : bool :=
  forallb (fun c => negb (is_capital c)) (list_ascii_of_string s).

(** [msg] contains [needle] case-insensitively: a piece of [msg] is [needle]
    up to the case of its letters. *)
Definition contains_ci (needle msg : string) : Prop :=
  exists pre mid post, msg = pre ++ mid ++ post /\ same_ignoring_case mid needle = true.

(** The number a Retry-After header gives as a delay in seconds, written as
    HTTP writes it: one or more of the digits 0 to 9 and nothing else (read
    here by the Standard Library's decimal notation), at most 4300 of them. *)
Definition delay_seconds (s : string) : option Z :=
  match s with
  | EmptyString => None
  | _ => if (String.length s <=? 4300)%nat
         then option_map Z.of_uint (NilEmpty.uint_of_string s)
         else None
  end.

(** The Retry-After header is absent (or empty), or gives a delay in
    seconds. *)
Definition retry_after_readable (ra : option string) : Prop :=
  ra = None \/ ra = Some EmptyString \/
  exists s n, ra = Some s /\ delay_seconds s = Some n.

(** Every character, for properties checked character by character. *)
Definition all_ascii : list ascii := map ascii_of_nat (seq 0 256).

(** The error has a status code of 500 or more. *)
Definition status_5xx (e : GatewayError) : Prop :=
  exists sc, status_code e = Some sc /\ (500 <= sc)%Z.

(** A Network error: its code is [NETWORK_ERROR] (the class
    [GatewayNetworkError], or the base class built with that code as the
    client does). *)
Definition network_error (e : GatewayError) : Prop :=
  code e = Some "NETWORK_ERROR".

(** The retryability rule as the specification words it, at one error. *)
Definition retryable_as_stated (e : GatewayError) : Prop :=
  (is_retryable_error e = true <->
   network_error e \/ kind e = Upstream \/ status_5xx e) /\
  (kind e = RateLimit \/ kind e = Auth \/ kind e = Policy \/ kind e = Token ->
   is_retryable_error e = false).

(** The capped exponential delay [min(base_delay * 2^i, max_delay)]. *)
Definition capped_delay (options : RetryOptions) (i : nat) : Q :=
  Qmin (base_delay options * (2 # 1) ^ Z.of_nat i)%Q (max_delay options).

(** An attempt after which the pipeline goes on: it raised an exception that
    [except Exception] catches and that is not a non-retryable Gateway
    error. *)
Definition retried {A} (r : PyResult A) : Prop :=
  exists e, r = Raise e /\ caught e = true /\ gives_up_on e = false.



(** An operation that counts its invocations, raises a Network error on the
    first [failures] of them and then succeeds. *)
Definition flaky (failures : nat) (count : nat) : PyResult string * nat :=
  (if (count <? failures)%nat
   then Raise (GatewayExn (GatewayErrorBase (PyStr "Network error: timeout") None
                             (Some "NETWORK_ERROR")))
   else Return "ok",
   S count).

(** Operations that count their invocations and always raise the same thing. *)
Definition always_raises (e : PyExn) (count : nat) : PyResult string * nat :=
  (Raise e, S count).

(** A sleep that leaves the operation's state alone. *)
Definition no_effect {S : Type} (_ : Q) (s : S) : S := s.

End Spec.

(** ** A test double of the environment *)
Module Mock.
Import Errors Retry Client.

Local Open Scope string_scope.

Definition dquote : string := String (ascii_of_nat 34) EmptyString.

(** The JSON text of an object with the single member [iat] = 0. *)
Definition payload_text : string := "{" ++ dquote ++ "iat" ++ dquote ++ ":0}".

(** A token whose second part is the base64 of [payload_text]. *)
Definition stale_token : string := "hdr.eyJpYXQiOjB9.sig".

Definition mock_b64decode_decode (s : string) : option string :=
  if String.eqb s "eyJpYXQiOjB9==" then Some payload_text else None.

Definition mock_json_loads (s : string) : option PyVal :=
  if String.eqb s payload_text then Some (PyDict [("iat", PyInt 0)]) else None.

(** The clock stands 25 hours after the epoch. *)
Definition mock_clock_ms (_ : World) : Z := 25 * 60 * 60 * 1000.

(** A gateway that answers every request with 200 and a job id. *)
Definition mock_transport (_ : World) (_ : Request) : TransportOutcome :=
  Responded {| resp_status_code := 200;
               resp_content := "{...}";
               resp_headers_get := fun _ => None;
               resp_json := Return (PyDict [("job_id", PyStr "job-1");
                                            ("success", PyBool true);
                                            ("data", PyStr "done");
                                            ("metadata", PyDict [])]) |}.

(** A gateway that answers every request with 429 and the given Retry-After. *)
Definition mock_transport_429 (retry_after : string) (_ : World) (_ : Request)
  : TransportOutcome :=
  Responded {| resp_status_code := 429;
               resp_content := "{...}";
               resp_headers_get :=
                 fun h => if String.eqb h "Retry-After" then Some retry_after else None;
               resp_json := Return (PyDict [("error", PyStr "rate limit exceeded")]) |}.

Definition mock_random_suffix (_ : World) : string := "k3x9q0zab".
Definition mock_random_random (_ : World) (_ : nat) : Q := 1 # 2.
Definition mock_isoformat_in (_ : World) (seconds : Z) : PyResult string :=
  if (seconds <=? 253402300799)%Z then Return "1970-01-02T01:10:00"
  else Raise (OtherExn "ValueError").
Definition mock_json_dumps (_ : PyVal) : string := "{}".
Definition mock_proxy_response_data (j : PyVal) : PyResult PyVal := py_getitem j "data".

Definition mock_client : GatewayClient :=
  {| base_url := "https://gateway.example"; agent_id := "agent-1";
     agent_private_key_pem := "pem"; default_intent := None;
     timeout_ms := 6000; current_intent := EmptyString |}.

Definition empty_world : World := {| sent := []; slept := []; printed := [] |}.

(** A transport that is down: every request times out. *)
Definition mock_transport_down (_ : World) (_ : Request) : TransportOutcome :=
  RequestError "timed out".

(** A gateway that answers every request with the given status and no body. *)
Definition mock_transport_status (status : Z) (_ : World) (_ : Request)
  : TransportOutcome :=
  Responded {| resp_status_code := status;
               resp_content := EmptyString;
               resp_headers_get := fun _ => None;
               resp_json := Raise (OtherExn "JSONDecodeError") |}.

(** The response of a gateway that issues [stale_token], and that gateway. *)
Definition token_response : Response :=
  {| resp_status_code := 200;
     resp_content := "{...}";
     resp_headers_get := fun _ => None;
     resp_json := Return (PyDict [("agent_token", PyStr stale_token)]) |}.

Definition mock_transport_token (_ : World) (_ : Request) : TransportOutcome :=
  Responded token_response.

(** The response of [mock_transport] with a rotation recommendation. *)
Definition rotation_response : Response :=
  {| resp_status_code := 200;
     resp_content := "{...}";
     resp_headers_get :=
       fun h => if String.eqb h "X-Token-Rotation-Recommended" then Some "true"
                else None;
     resp_json := Return (PyDict [("success", PyBool true); ("data", PyStr "done");
                                  ("metadata", PyDict [])]) |}.

Definition mock_transport_rotation (_ : World) (_ : Request) : TransportOutcome :=
  Responded rotation_response.

(** The clock stands exactly 24 hours after the epoch. *)
Definition mock_clock_24h (_ : World) : Z := 24 * 60 * 60 * 1000.

End Mock.

(** ** Further notions used by the properties beyond the specification *)
Module More.
Import Errors Retry.

Local Open Scope string_scope.

(** The string made of [k] copies of the character [c]. *)
Fixpoint repeat_char (c : ascii) (k : nat) : string :=
  match k with
  | O => EmptyString
  | Datatypes.S k' => String c (repeat_char c k')
  end.




(** The time a run spent in backoff: the sum of the arguments of
    [asyncio.sleep]. *)
Definition total_sleep (l : list Q) : Q := fold_right Qplus 0%Q l.

End More.

(** ** Properties of the error classifier *)
Module ErrorsTheory.
Import Errors Spec.

Local Open Scope string_scope.

Lemma prefix_split (n h : string) :
  String.prefix n h = true -> exists post, h = n ++ post.
Proof.
  revert h. induction n as [|c n IH]; intros h H.
  - exists h. reflexivity.
  - destruct h as [|d h]; simpl in H; [discriminate|].
    destruct (Ascii.ascii_dec c d) as [->|]; [|discriminate].
    destruct (IH _ H) as [post ->]. exists post. reflexivity.
Qed.

Lemma prefix_app (n post : string) : String.prefix n (n ++ post) = true.
Proof.
  induction n as [|c n IH]; simpl.
  - destruct post; reflexivity.
  - destruct (Ascii.ascii_dec c c); [exact IH | congruence].
Qed.

Lemma contains_split (n h : string) :
  contains n h = true -> exists pre post, h = pre ++ n ++ post.
Proof.
  induction h as [|d h IH]; cbn [contains]; intros H.
  - destruct (String.prefix n EmptyString) eqn:E; [|discriminate].
    apply prefix_split in E. destruct E as [post E].
    exists EmptyString, post. exact E.
  - destruct (String.prefix n (String d h)) eqn:E.
    + apply prefix_split in E. destruct E as [post E].
      exists EmptyString, post. exact E.
    + destruct (IH H) as (pre & post & ->).
      exists (String d pre), post. reflexivity.
Qed.

Lemma contains_app (n pre post : string) : contains n (pre ++ n ++ post) = true.
Proof.
  induction pre as [|d pre IH].
  - change (EmptyString ++ n ++ post) with (n ++ post).
    destruct (n ++ post) eqn:E; cbn [contains]; rewrite <- E, prefix_app; reflexivity.
  - change (String d pre ++ n ++ post) with (String d (pre ++ n ++ post)).
    cbn [contains]. rewrite IH.
    destruct (String.prefix n (String d (pre ++ n ++ post))); reflexivity.
Qed.

Lemma lower_app (a b : string) : lower (a ++ b) = lower a ++ lower b.
Proof. induction a as [|c a IH]; simpl; [reflexivity | now rewrite IH]. Qed.

Lemma lower_app_inv (s a b : string) :
  lower s = a ++ b -> exists a' b', s = a' ++ b' /\ lower a' = a /\ lower b' = b.
Proof.
  revert s. induction a as [|c a IH]; intros s H.
  - exists EmptyString, s. auto.
  - destruct s as [|d s]; simpl in H; [discriminate|].
    injection H as Hc Hs. destruct (IH _ Hs) as (a' & b' & -> & Ha & Hb).
    exists (String d a'), b'. simpl. rewrite Hc, Ha. auto.
Qed.

Lemma in_all_ascii (c : ascii) : In c all_ascii.
Proof.
  unfold all_ascii. rewrite <- (ascii_nat_embedding c).
  apply in_map. apply in_seq. pose proof (nat_ascii_bounded c). lia.
Qed.

Lemma lower_same_letter (c n : ascii) :
  is_capital n = false -> Ascii.eqb (lower_ascii c) n = same_letter c n.
Proof.
  assert (H : forallb (fun c => forallb (fun n =>
                implb (negb (is_capital n))
                  (Bool.eqb (Ascii.eqb (lower_ascii c) n) (same_letter c n)))
                all_ascii) all_ascii = true) by (vm_compute; reflexivity).
  rewrite forallb_forall in H. specialize (H c (in_all_ascii c)).
  rewrite forallb_forall in H. specialize (H n (in_all_ascii n)).
  intros Hn. rewrite Hn in H. simpl in H. apply Bool.eqb_prop in H. exact H.
Qed.

Lemma lower_same (s n : string) :
  small_case n = true -> (lower s = n <-> same_ignoring_case s n = true).
Proof.
  revert n. induction s as [|c s IH]; intros [|d n] Hn; simpl;
    try (split; [discriminate | discriminate]); try tauto.
  unfold small_case in Hn. simpl in Hn. apply andb_true_iff in Hn.
  destruct Hn as [Hd Hn]. apply negb_true_iff in Hd.
  rewrite <- (lower_same_letter c d Hd), andb_true_iff, Ascii.eqb_eq, <- (IH n Hn).
  split; [intros [= -> ->]; auto | intros [-> ->]; reflexivity].
Qed.

(** The test the classifier runs is case-insensitive containment. *)
Lemma contains_lower_ci (needle msg : string) :
  small_case needle = true ->
  (contains needle (lower msg) = true <-> contains_ci needle msg).
Proof.
  intros Hsmall. split.
  - intros H. apply contains_split in H. destruct H as (pre & post & H).
    apply lower_app_inv in H. destruct H as (pre' & rest & -> & _ & H).
    apply lower_app_inv in H. destruct H as (mid & post' & -> & Hm & _).
    exists pre', mid, post'. split; [reflexivity|].
    apply (lower_same mid needle Hsmall). exact Hm.
  - intros (pre & mid & post & -> & H).
    apply (lower_same mid needle Hsmall) in H. subst needle.
    rewrite !lower_app. apply contains_app.
Qed.

(** *** Reading a delay in seconds *)

Lemma uint_of_char_digit (c : ascii) (o : option Decimal.uint) (u : Decimal.uint) :
  uint_of_char c o = Some u ->
  exists u' d, o = Some u' /\ digit_of c = Some d /\ (0 <= d)%Z /\
               is_space c = false /\
               (N_of_ascii c <? 128)%N = true /\ c <> "_"%char /\
               c <> "-"%char /\ c <> "+"%char /\
               (forall p, Pos.of_uint_acc u p = Pos.of_uint_acc u' (Z.to_pos (10 * Zpos p + d))) /\
               (d = 0%Z -> Pos.of_uint u = Pos.of_uint u') /\
               ((0 < d)%Z -> Pos.of_uint u = Npos (Pos.of_uint_acc u' (Z.to_pos d))).
Proof.
  destruct o as [u'|]; [|destruct c as [[] [] [] [] [] [] [] []]; discriminate].
  destruct c as [[] [] [] [] [] [] [] []]; cbn [uint_of_char]; try discriminate;
    intros [= <-]; eexists; eexists; (split; [reflexivity|]);
    (split; [vm_compute; reflexivity|]); (split; [lia|]); repeat split; try discriminate; try lia;
    intros; cbn [Pos.of_uint_acc Pos.of_uint]; f_equal; lia.
Qed.

Lemma digits_of_uint (s : string) :
  forall u, NilEmpty.uint_of_string s = Some u ->
  (forall p, digits (Zpos p) true (list_ascii_of_string s)
             = Some (Zpos (Pos.of_uint_acc u p))) /\
  (forall b, s <> EmptyString \/ b = true ->
             digits 0 b (list_ascii_of_string s) = Some (Z.of_uint u)).
Proof.
  unfold Z.of_uint.
  induction s as [|c r IH]; intros u Hu.
  - injection Hu as <-. split; [reflexivity|].
    intros b [H| ->]; [congruence | reflexivity].
  - cbn [NilEmpty.uint_of_string] in Hu.
    destruct (uint_of_char_digit _ _ _ Hu)
      as (u' & d & Hr & Hd & Hd0 & _ & _ & _ & _ & _ & Hacc & Hzero & Hpos).
    destruct (IH u' Hr) as [IHp IH0].
    cbn [list_ascii_of_string digits]. rewrite Hd. split.
    + intros p. rewrite Hacc.
      replace (10 * Z.pos p + d)%Z with (Z.pos (Z.to_pos (10 * Z.pos p + d))) at 1
        by (rewrite Z2Pos.id; lia).
      apply IHp.
    + intros b _. replace (10 * 0 + d)%Z with d by lia.
      destruct (Z.eq_dec d 0) as [->|Hne].
      * rewrite (Hzero eq_refl). apply IH0. right. reflexivity.
      * rewrite Hpos by lia.
        replace d with (Z.pos (Z.to_pos d)) at 1 by (rewrite Z2Pos.id; lia).
        apply IHp.
Qed.

Lemma uint_of_string_chars (s : string) (u : Decimal.uint) :
  NilEmpty.uint_of_string s = Some u ->
  Forall (fun c => is_space c = false /\ (N_of_ascii c <? 128)%N = true /\
                   c <> "_"%char /\ c <> "-"%char /\ c <> "+"%char)
    (list_ascii_of_string s).
Proof.
  revert u. induction s as [|c r IH]; intros u Hu; [constructor|].
  cbn [NilEmpty.uint_of_string] in Hu.
  destruct (uint_of_char_digit _ _ _ Hu) as (u' & d & Hr & _ & _ & H).
  constructor; [tauto | exact (IH u' Hr)].
Qed.

Lemma lstrip_no_space (l : list ascii) :
  Forall (fun c => is_space c = false) l -> lstrip l = l.
Proof. intros [|c r Hc _]; [reflexivity|]. simpl. rewrite Hc. reflexivity. Qed.

Lemma strip_no_space (l : list ascii) :
  Forall (fun c => is_space c = false) l -> strip l = l.
Proof.
  intros H. unfold strip. rewrite (lstrip_no_space l H).
  rewrite lstrip_no_space; [apply rev_involutive|].
  rewrite Forall_forall in *. intros c Hc. apply H. apply in_rev. exact Hc.
Qed.

Lemma count_digits_no_underscore (l : list ascii) :
  Forall (fun c => c <> "_"%char) l -> count_digits l = List.length l.
Proof.
  unfold count_digits. induction 1 as [|c r Hc _ IH]; [reflexivity|].
  cbn [filter]. destruct (Ascii.eqb_spec c "_"); [contradiction|].
  cbn [negb List.length]. rewrite IH. reflexivity.
Qed.

Lemma length_list_ascii (s : string) :
  List.length (list_ascii_of_string s) = String.length s.
Proof. induction s as [|c r IH]; [reflexivity|]. simpl. rewrite IH. reflexivity. Qed.

Lemma long_from_string_unsigned (c : ascii) (r : list ascii) :
  c <> "-"%char -> c <> "+"%char -> strip (c :: r) = c :: r ->
  long_from_string (c :: r) = numeral (c :: r).
Proof.
  intros Hm Hp Hs. unfold long_from_string. rewrite Hs.
  destruct c as [[] [] [] [] [] [] [] []]; try reflexivity; congruence.
Qed.

(** [int] on a text of the digits 0 to 9 alone: the number written, unless
    there are more than 4300 of them. *)
Lemma py_int_digits (s : string) (u : Decimal.uint) :
  s <> EmptyString -> NilEmpty.uint_of_string s = Some u ->
  py_int s = if (String.length s <=? 4300)%nat then Some (Z.of_uint u) else None.
Proof.
  intros Hne Hu. destruct s as [|c r]; [congruence|].
  pose proof (uint_of_string_chars _ _ Hu) as Hchars.
  unfold py_int.
  replace (is_ascii (list_ascii_of_string (String c r))) with true.
  2:{ symmetry. unfold is_ascii. apply forallb_forall. intros x Hx.
      rewrite Forall_forall in Hchars. apply (Hchars x Hx). }
  cbn [list_ascii_of_string] in *.
  pose proof (Forall_inv Hchars) as Hc. cbv beta in Hc.
  rewrite long_from_string_unsigned.
  - unfold numeral. rewrite count_digits_no_underscore.
    + change (List.length (c :: list_ascii_of_string r))
        with (List.length (list_ascii_of_string (String c r))).
      rewrite length_list_ascii. unfold int_max_str_digits.
      destruct (Nat.ltb_spec 4300 (String.length (String c r))) as [Hgt|Hle];
        destruct (Nat.leb_spec (String.length (String c r)) 4300) as [Hle'|Hgt'];
        try lia; [reflexivity|].
      apply (proj2 (digits_of_uint (String c r) u Hu) false). left. discriminate.
    + eapply Forall_impl; [|exact Hchars]. tauto.
  - tauto.
  - tauto.
  - apply strip_no_space. eapply Forall_impl; [|exact Hchars]. tauto.
Qed.

(** [int] reads a delay in seconds as the number it writes. *)
Lemma py_int_delay_seconds (s : string) (n : Z) :
  delay_seconds s = Some n -> py_int s = Some n.
Proof.
  unfold delay_seconds. destruct s as [|c r]; [discriminate|].
  destruct (String.length (String c r) <=? 4300)%nat eqn:Hlen; [|discriminate].
  destruct (NilEmpty.uint_of_string (String c r)) as [u|] eqn:Hu; [|discriminate].
  intros [= <-]. rewrite (py_int_digits (String c r) u); [|discriminate|exact Hu].
  rewrite Hlen. reflexivity.
Qed.

Example scope_exceeded_is_policy :
  create_error_from_response 400 (PyStr "scope exceeded") None
  = Return (GatewayPolicyError (PyStr "scope exceeded") (Some 400%Z)).
Proof. reflexivity. Qed.

Example bad_request_is_generic :
  create_error_from_response 400 (PyStr "bad request") None
  = Return (GatewayErrorBase (PyStr "bad request") (Some 400%Z) None).
Proof. reflexivity. Qed.

Example policy_any_case :
  create_error_from_response 400 (PyStr "Violates POLICY p1") None
  = Return (GatewayPolicyError (PyStr "Violates POLICY p1") (Some 400%Z)).
Proof. reflexivity. Qed.

Example retry_after_30 :
  create_error_from_response 429 (PyStr "slow down") (Some "30")
  = Return (GatewayRateLimitError (PyStr "slow down") (Some 30%Z) (Some 429%Z)).
Proof. reflexivity. Qed.

(** Closes a goal whose hypotheses about case-insensitive containment
    contradict what the classifier's own test found. *)
Ltac ci_contradiction :=
  match goal with
  | H : ~ (contains_ci _ _ \/ contains_ci _ _) |- _ =>
      exfalso; apply H; (left + right);
      (apply contains_lower_ci; [reflexivity | assumption])
  | H : contains_ci _ _ \/ contains_ci _ _ |- _ =>
      destruct H as [H|H]; (apply contains_lower_ci in H; [|reflexivity]);
      congruence
  end.

(** C6.  For every status code and every server message (and a Retry-After
    header that, on a 429, is absent, empty or a delay in seconds written in
    digits), the classifier returns
    one Gateway error carrying the message and the status, whose variant is:
    Auth for 401 and 403; RateLimit for 429; for 400, Policy when the message
    contains "policy" or "scope" in any letter case and Generic otherwise;
    Upstream for 502, 503 and 504; Generic for every other status. *)
Theorem create_error_from_response_variant
    (sc : Z) (msg : string) (ra : option string) :
  (sc = 429%Z -> retry_after_readable ra) ->
  exists e,
    create_error_from_response sc (PyStr msg) ra = Return e /\
    message e = PyStr msg /\ status_code e = Some sc /\
    (sc = 401%Z \/ sc = 403%Z -> kind e = Auth) /\
    (sc = 429%Z -> kind e = RateLimit) /\
    (sc = 400%Z -> contains_ci "policy" msg \/ contains_ci "scope" msg ->
     kind e = Policy) /\
    (sc = 400%Z -> ~ (contains_ci "policy" msg \/ contains_ci "scope" msg) ->
     kind e = Generic /\ code e = None) /\
    (sc = 502%Z \/ sc = 503%Z \/ sc = 504%Z -> kind e = Upstream) /\
    (sc <> 400%Z -> sc <> 401%Z -> sc <> 403%Z -> sc <> 429%Z ->
     sc <> 502%Z -> sc <> 503%Z -> sc <> 504%Z ->
     kind e = Generic /\ code e = None).
Proof.
  intros Hra. unfold create_error_from_response.
  destruct (Z.eqb_spec sc 401) as [->|N401].
  { eexists; split; [reflexivity|]. simpl. repeat split; try lia; auto. }
  destruct (Z.eqb_spec sc 403) as [->|N403].
  { eexists; split; [reflexivity|]. simpl. repeat split; try lia; auto. }
  simpl orb at 1. cbv iota.
  destruct (Z.eqb_spec sc 429) as [->|N429].
  { assert (exists seconds, retry_after_seconds ra = Return seconds) as [seconds ->].
    { destruct (Hra eq_refl) as [->|[->|(s & n & -> & Hn)]];
        [eexists; reflexivity | eexists; reflexivity |].
      unfold retry_after_seconds. rewrite (py_int_delay_seconds s n Hn).
      destruct s; eexists; reflexivity. }
    eexists; split; [reflexivity|]. simpl. repeat split; try lia; auto. }
  destruct (Z.eqb_spec sc 400) as [->|N400].
  { simpl py_lower. cbv iota.
    destruct (contains "policy" (lower msg)) eqn:Ep;
      [|destruct (contains "scope" (lower msg)) eqn:Es];
      (eexists; split; [reflexivity|]); simpl; repeat split; try lia; auto;
      try (intros; ci_contradiction). }
  destruct (Z.eqb_spec sc 502) as [->|N502].
  { eexists; split; [reflexivity|]. simpl. repeat split; try lia; auto. }
  destruct (Z.eqb_spec sc 503) as [->|N503].
  { eexists; split; [reflexivity|]. simpl. repeat split; try lia; auto. }
  destruct (Z.eqb_spec sc 504) as [->|N504].
  { eexists; split; [reflexivity|]. simpl. repeat split; try lia; auto. }
  eexists; split; [reflexivity|]. simpl. repeat split; try lia; auto.
Qed.

Lemma create_error_from_response_variant_witness :
  exists e,
    create_error_from_response 429 (PyStr "slow down") (Some "30") = Return e /\
    kind e = RateLimit.
Proof.
  destruct (create_error_from_response_variant 429 "slow down" (Some "30"))
    as (e & He & _ & _ & _ & Hk & _).
  - intros _. right. right. exists "30", 30%Z. split; reflexivity.
  - exists e. split; [exact He | apply Hk; reflexivity].
Defined.

(** C7.  On a 429 whose Retry-After header is not an integer the classifier
    raises [ValueError] instead of returning a RateLimit error with
    [retry_after] unset; with the header absent or an integer it returns the
    RateLimit error, [retry_after] unset or set from the header. *)
Theorem retry_after_malformed_raises :
  create_error_from_response 429 (PyStr "slow down") (Some "soon")
    = Raise (OtherExn "ValueError") /\
  create_error_from_response 429 (PyStr "slow down")
    (Some "Wed, 21 Oct 2015 07:28:00 GMT") = Raise (OtherExn "ValueError") /\
  (forall msg, create_error_from_response 429 msg None
               = Return (GatewayRateLimitError msg None (Some 429%Z))) /\
  (forall msg, create_error_from_response 429 msg (Some EmptyString)
               = Return (GatewayRateLimitError msg None (Some 429%Z))) /\
  (forall msg, create_error_from_response 429 msg (Some "120")
               = Return (GatewayRateLimitError msg (Some 120%Z) (Some 429%Z))).
Proof. repeat split. Qed.

End ErrorsTheory.

(** ** Properties of the retry policy and of the pipeline *)
Module RetryTheory.
Import Errors Retry Spec.

Local Open Scope Q_scope.

(** *** Retryability *)

Lemma status_at_least_500_iff (e : GatewayError) :
  status_at_least_500 e = true <-> status_5xx e.
Proof.
  unfold status_at_least_500, status_5xx. destruct (status_code e) as [sc|].
  - rewrite andb_true_iff, negb_true_iff, Z.eqb_neq, Z.leb_le. split.
    + intros [_ H]. exists sc. auto.
    + intros (sc' & [= <-] & H). split; lia.
  - split; [discriminate | intros (sc & [=] & _)].
Qed.

Lemma code_is_network_iff (e : GatewayError) :
  code_is_network e = true <-> network_error e.
Proof.
  unfold code_is_network, network_error. destruct (code e) as [c|].
  - rewrite String.eqb_eq. split; congruence.
  - split; discriminate.
Qed.

Lemma rate_limit_never_retryable m ra sc :
  is_retryable_error (GatewayRateLimitError m ra sc) = false.
Proof. reflexivity. Qed.

(** C5, as amended.  A RateLimit error is never retryable.  Any other Gateway
    error is retryable exactly when it is a Network error, an Upstream error,
    or carries a status code of 500 or more; so an Auth, Policy or Token
    error is not retryable when its status code is absent or below 500. *)
Theorem is_retryable_error_rule (e : GatewayError) :
  (kind e = RateLimit -> is_retryable_error e = false) /\
  (kind e <> RateLimit ->
   (is_retryable_error e = true <->
    network_error e \/ kind e = Upstream \/ status_5xx e)) /\
  (kind e = Auth \/ kind e = Policy \/ kind e = Token ->
   ~ status_5xx e -> is_retryable_error e = false).
Proof.
  split; [|split].
  - destruct e; simpl; intros H; try discriminate; reflexivity.
  - intros Hk. unfold is_retryable_error.
    destruct (isinstance_rate_limit e) eqn:Er.
    { destruct e; simpl in *; try discriminate; congruence. }
    destruct (code_is_network e) eqn:En.
    { apply code_is_network_iff in En. tauto. }
    destruct (isinstance_upstream e) eqn:Eu.
    { destruct e; simpl in *; try discriminate; tauto. }
    destruct (status_at_least_500 e) eqn:Es.
    { apply status_at_least_500_iff in Es. tauto. }
    split; [discriminate|]. intros [H|[H|H]].
    + apply code_is_network_iff in H. congruence.
    + destruct e; simpl in *; discriminate.
    + apply status_at_least_500_iff in H. congruence.
  - intros Hk Hs. unfold is_retryable_error.
    destruct (status_at_least_500 e) eqn:Es.
    { apply status_at_least_500_iff in Es. contradiction. }
    destruct e; simpl in *; destruct Hk as [H|[H|H]]; try discriminate; reflexivity.
Qed.

Lemma is_retryable_error_rule_witness :
  is_retryable_error (GatewayAuthError (PyStr "denied") (Some 401%Z)) = false /\
  is_retryable_error (GatewayRateLimitError (PyStr "slow") None (Some 503%Z)) = false /\
  (is_retryable_error (GatewayErrorBase (PyStr "boom") (Some 500%Z) None) = true <->
   network_error (GatewayErrorBase (PyStr "boom") (Some 500%Z) None) \/
   kind (GatewayErrorBase (PyStr "boom") (Some 500%Z) None) = Upstream \/
   status_5xx (GatewayErrorBase (PyStr "boom") (Some 500%Z) None)).
Proof.
  split; [|split].
  - apply (proj2 (proj2 (is_retryable_error_rule
                           (GatewayAuthError (PyStr "denied") (Some 401%Z))))).
    + left. reflexivity.
    + intros (sc & E & H). injection E as <-. lia.
  - apply (proj1 (is_retryable_error_rule
                    (GatewayRateLimitError (PyStr "slow") None (Some 503%Z)))).
    reflexivity.
  - apply (proj1 (proj2 (is_retryable_error_rule
                           (GatewayErrorBase (PyStr "boom") (Some 500%Z) None)))).
    discriminate.
Defined.

(** C5, as stated, fails: an Auth error built with status 503 is retryable,
    although the claim has every Auth error non-retryable. *)
Lemma retryable_as_stated_fails_on_auth_503 :
  ~ retryable_as_stated (GatewayAuthError (PyStr "denied") (Some 503%Z)).
Proof.
  intros [_ H]. specialize (H (or_intror (or_introl eq_refl))). discriminate H.
Qed.

(** *** Backoff delay *)

Lemma py_min_Qmin (a b : Q) : py_min a b == Qmin a b.
Proof.
  unfold py_min. destruct (Qlt_le_dec b a) as [H|H].
  - symmetry. apply Q.min_r. lra.
  - symmetry. apply Q.min_l. exact H.
Qed.

Lemma py_max_Qmax (a b : Q) : py_max a b == Qmax a b.
Proof.
  unfold py_max. destruct (Qlt_le_dec a b) as [H|H].
  - symmetry. apply Q.max_r. lra.
  - symmetry. apply Q.max_l. exact H.
Qed.

Lemma pow2_power (i : nat) : pow2 i == (2 # 1) ^ Z.of_nat i.
Proof. unfold pow2. apply (Zpower_Qpower 2). lia. Qed.

Lemma capped_delay_code (options : RetryOptions) (i : nat) :
  py_min (base_delay options * pow2 i) (max_delay options) == capped_delay options i.
Proof.
  unfold capped_delay. rewrite py_min_Qmin. apply Q.min_compat; [|reflexivity].
  rewrite pow2_power. reflexivity.
Qed.

(** C8.  With jitter off the delay of attempt [i] is
    [min(base_delay * 2^i, max_delay)]; with [base_delay = 1], [max_delay = 10]
    the attempts 0, 1, 2 wait 1, 2, 4 seconds, and with [max_delay = 3] they
    wait 1, 2, 3 seconds. *)
Theorem calculate_delay_no_jitter (i : nat) (options : RetryOptions) (r : Q) :
  jitter options = false ->
  calculate_delay i options r == capped_delay options i /\
  (forall n,
     let o10 := {| max_retries := n; base_delay := 1; max_delay := 10;
                   jitter := false |} in
     calculate_delay 0 o10 r = 1 /\ calculate_delay 1 o10 r = 2 /\
     calculate_delay 2 o10 r = 4) /\
  (forall n,
     let o3 := {| max_retries := n; base_delay := 1; max_delay := 3;
                  jitter := false |} in
     calculate_delay 0 o3 r = 1 /\ calculate_delay 1 o3 r = 2 /\
     calculate_delay 2 o3 r = 3).
Proof.
  intros Hj. split.
  - unfold calculate_delay. rewrite Hj. apply capped_delay_code.
  - split; intros n; repeat split; reflexivity.
Qed.

Lemma calculate_delay_no_jitter_witness :
  let o := {| max_retries := 3; base_delay := 1; max_delay := 10; jitter := false |} in
  calculate_delay 5 o (1 # 3) == capped_delay o 5.
Proof.
  apply (calculate_delay_no_jitter 5
           {| max_retries := 3; base_delay := 1; max_delay := 10; jitter := false |}
           (1 # 3)).
  reflexivity.
Defined.

(** C9.  With jitter on and a draw [r] in [[0, 1)], the delay is the capped
    delay [d] plus [d * 0.25 * (r - 0.5)], floored at zero: for [d >= 0] it
    lies in [[0.875 * d, 1.125 * d)], a spread of 12.5% either way and not the
    25% of the comment; at the defaults the lowest draw gives 0.875 s. *)
Theorem calculate_delay_jitter_spread (i : nat) (options : RetryOptions) (r : Q) :
  jitter options = true ->
  0 <= r -> r < 1 ->
  0 <= calculate_delay i options r /\
  (0 <= capped_delay options i ->
   (875 # 1000) * capped_delay options i <= calculate_delay i options r /\
   calculate_delay i options r <= (1125 # 1000) * capped_delay options i) /\
  calculate_delay 0 default_options 0 == 875 # 1000 /\
  ~ calculate_delay 0 default_options 0 == (75 # 100) * capped_delay default_options 0.
Proof.
  intros Hj Hr0 Hr1. unfold calculate_delay. rewrite Hj.
  pose proof (capped_delay_code options i) as Hd.
  set (d := py_min (base_delay options * pow2 i) (max_delay options)) in *.
  rewrite py_max_Qmax. split; [apply Q.le_max_l|]. split.
  - intros Hd0. rewrite <- Hd. split.
    + eapply Qle_trans; [|apply Q.le_max_r]. nra.
    + apply Q.max_lub; nra.
  - split; [reflexivity|]. vm_compute. discriminate.
Qed.

Lemma calculate_delay_jitter_spread_witness :
  (875 # 1000) * capped_delay default_options 0 <= calculate_delay 0 default_options 0.
Proof.
  destruct (calculate_delay_jitter_spread 0 default_options 0) as (_ & H & _).
  - reflexivity.
  - discriminate.
  - reflexivity.
  - apply H. discriminate.
Defined.

(** *** The pipeline *)

Section Pipeline.
Context {A S : Type}.
Variable fn : S -> PyResult A * S.
Variable options : RetryOptions.
Variable rnd : nat -> Q.
Variable sleep : Q -> S -> S.

Lemma delays_S (n : nat) :
  delays options rnd (Datatypes.S n)
  = (delays options rnd n ++ [calculate_delay n options (rnd n)])%list.
Proof. unfold delays. rewrite seq_S, map_app. reflexivity. Qed.

(** Each attempt index of the loop costs at most one invocation. *)
Lemma retry_loop_calls (l : list nat) :
  forall last s tr,
    (calls (snd (retry_loop fn options rnd sleep l last s tr))
     <= calls tr + List.length l)%nat.
Proof.
  induction l as [|attempt rest IH]; intros last s tr.
  - simpl. lia.
  - cbn [retry_loop]. destruct (fn s) as [[a|e] s1].
    + simpl. lia.
    + destruct (negb (caught e)); [simpl; lia|].
      destruct (Nat.eqb attempt (max_retries options)); [simpl; lia|].
      destruct (gives_up_on e); [simpl; lia|].
      etransitivity; [apply IH|]. simpl. lia.
Qed.

(** While the attempts so far were all retried, the pipeline stands at the
    next attempt index, in the state the operation and the sleeps left. *)
Lemma with_retry_reaches (m : nat) (s : S) :
  (m <= max_retries options)%nat ->
  (forall j, (j < m)%nat -> retried (outcome fn options rnd sleep j s)) ->
  exists last,
    with_retry fn (Some options) rnd sleep s
    = retry_loop fn options rnd sleep (seq m (max_retries options + 1 - m)) last
        (state_before fn options rnd sleep m s)
        {| calls := m; sleeps := delays options rnd m |}.
Proof.
  induction m as [|m IH]; intros Hm Hall.
  - exists None. unfold with_retry, resolve_options. cbv zeta.
    rewrite Nat.sub_0_r. reflexivity.
  - destruct IH as [last IH]; [lia | intros j Hj; apply Hall; lia |].
    destruct (Hall m) as (e & He & Hc & Hg); [lia|].
    exists (Some e). rewrite IH.
    replace (max_retries options + 1 - m)%nat
      with (Datatypes.S (max_retries options + 1 - Datatypes.S m)) by lia.
    cbn [seq retry_loop]. unfold outcome in He.
    destruct (fn (state_before fn options rnd sleep m s)) as [res s1] eqn:Efn.
    simpl in He. subst res. rewrite Hc. cbn [negb].
    destruct (Nat.eqb_spec m (max_retries options)) as [E|_]; [lia|].
    rewrite Hg. unfold record_sleep, record_call. cbn [calls sleeps].
    rewrite delays_S. cbn [state_before]. rewrite Efn. reflexivity.
Qed.

(** The first success, reached through retried failures, ends the run. *)
Lemma with_retry_first_success (k : nat) (a : A) (s : S) :
  (k <= max_retries options)%nat ->
  (forall j, (j < k)%nat -> retried (outcome fn options rnd sleep j s)) ->
  outcome fn options rnd sleep k s = Return a ->
  with_retry fn (Some options) rnd sleep s
  = (Return a, state_after fn options rnd sleep k s,
     {| calls := k + 1; sleeps := delays options rnd k |}).
Proof.
  intros Hk Hall Hok. destruct (with_retry_reaches k s Hk Hall) as [last ->].
  replace (max_retries options + 1 - k)%nat
    with (Datatypes.S (max_retries options - k)) by lia.
  cbn [seq retry_loop]. unfold outcome in Hok. unfold state_after.
  destruct (fn (state_before fn options rnd sleep k s)) as [res s1].
  simpl in Hok. subst res.
  unfold record_call. cbn [calls sleeps snd]. rewrite Nat.add_1_r. reflexivity.
Qed.

(** A failure of the final attempt is raised as it is, with no sleep. *)
Lemma with_retry_exhausted (e : PyExn) (s : S) :
  (forall j, (j < max_retries options)%nat ->
             retried (outcome fn options rnd sleep j s)) ->
  outcome fn options rnd sleep (max_retries options) s = Raise e ->
  with_retry fn (Some options) rnd sleep s
  = (Raise e, state_after fn options rnd sleep (max_retries options) s,
     {| calls := max_retries options + 1;
        sleeps := delays options rnd (max_retries options) |}).
Proof.
  intros Hall Hbad.
  destruct (with_retry_reaches (max_retries options) s (le_n _) Hall) as [last ->].
  replace (max_retries options + 1 - max_retries options)%nat with 1%nat by lia.
  cbn [seq retry_loop]. unfold outcome in Hbad. unfold state_after.
  destruct (fn (state_before fn options rnd sleep (max_retries options) s))
    as [res s1].
  simpl in Hbad. subst res.
  rewrite Nat.eqb_refl. unfold record_call. cbn [calls sleeps snd].
  rewrite Nat.add_1_r. destruct (negb (caught e)); reflexivity.
Qed.

(** A first attempt that raises an error the pipeline gives up on ends the
    run at once. *)
Lemma with_retry_gives_up (e : PyExn) (s : S) :
  fst (fn s) = Raise e -> gives_up_on e = true ->
  with_retry fn (Some options) rnd sleep s
  = (Raise e, snd (fn s), {| calls := 1; sleeps := [] |}).
Proof.
  intros He Hg. unfold with_retry, resolve_options. cbv zeta.
  rewrite Nat.add_1_r. cbn [seq retry_loop].
  destruct (fn s) as [res s1]. simpl in He. subst res.
  destruct (negb (caught e)); [reflexivity|]. rewrite Hg.
  destruct (Nat.eqb 0 (max_retries options)); reflexivity.
Qed.

End Pipeline.

Lemma flaky_before (failures : nat) (options : RetryOptions) (rnd : nat -> Q) (n : nat) :
  state_before (flaky failures) options rnd no_effect n 0%nat = n.
Proof. induction n as [|n IH]; simpl; [reflexivity | now rewrite IH]. Qed.

Lemma flaky_retried (failures : nat) (options : RetryOptions) (rnd : nat -> Q) (j : nat) :
  (j < failures)%nat ->
  retried (outcome (flaky failures) options rnd no_effect j 0%nat).
Proof.
  intros Hj. unfold outcome. rewrite flaky_before. unfold flaky. simpl.
  destruct (Nat.ltb_spec j failures); [|lia].
  eexists. repeat split; reflexivity.
Qed.

Lemma flaky_succeeds (failures : nat) (options : RetryOptions) (rnd : nat -> Q) :
  outcome (flaky failures) options rnd no_effect failures 0%nat = Return "ok"%string.
Proof.
  unfold outcome. rewrite flaky_before. unfold flaky. simpl.
  rewrite Nat.ltb_irrefl. reflexivity.
Qed.




(** C4.  The pipeline invokes the operation at most [max_retries + 1] times.
    If attempt [k] is the first to succeed, the failures before it being
    retried, the pipeline returns its result after exactly [k + 1]
    invocations.  If the final attempt (index [max_retries]) fails, its error
    is raised after exactly [max_retries + 1] invocations, with a sleep after
    every attempt but the final one.  With [max_retries = 3], Network errors
    on attempts 0, 1, 2 and a success on attempt 3 make 4 invocations and a
    success. *)
Theorem with_retry_attempts :
  (forall (A S : Type) (fn : S -> PyResult A * S) (options : RetryOptions)
          (rnd : nat -> Q) (sleep : Q -> S -> S) (s : S),
     (calls (snd (with_retry fn (Some options) rnd sleep s)) <= max_retries options + 1)%nat /\
     (forall k a,
        (k <= max_retries options)%nat ->
        (forall j, (j < k)%nat -> retried (outcome fn options rnd sleep j s)) ->
        outcome fn options rnd sleep k s = Return a ->
        with_retry fn (Some options) rnd sleep s
        = (Return a, state_after fn options rnd sleep k s,
           {| calls := k + 1; sleeps := delays options rnd k |})) /\
     (forall e,
        (forall j, (j < max_retries options)%nat ->
                   retried (outcome fn options rnd sleep j s)) ->
        outcome fn options rnd sleep (max_retries options) s = Raise e ->
        with_retry fn (Some options) rnd sleep s
        = (Raise e, state_after fn options rnd sleep (max_retries options) s,
           {| calls := max_retries options + 1;
              sleeps := delays options rnd (max_retries options) |}))) /\
  (forall rnd,
     with_retry (flaky 3) None rnd no_effect 0%nat
     = (Return "ok"%string, 4%nat,
        {| calls := 4; sleeps := delays default_options rnd 3 |})).
Proof.
  split.
  - intros A S fn options rnd sleep s. split; [|split].
    + unfold with_retry, resolve_options. cbv zeta.
      etransitivity; [apply retry_loop_calls|]. rewrite length_seq. simpl. lia.
    + intros k a. apply with_retry_first_success.
    + intros e. apply with_retry_exhausted.
  - intros rnd.
    change (with_retry (flaky 3) None rnd no_effect 0%nat)
      with (with_retry (flaky 3) (Some default_options) rnd no_effect 0%nat).
    rewrite (with_retry_first_success (flaky 3) default_options rnd no_effect
               3 "ok"%string 0%nat).
    + unfold state_after. rewrite flaky_before. reflexivity.
    + simpl. lia.
    + intros j Hj. now apply flaky_retried.
    + apply flaky_succeeds.
Qed.

Lemma with_retry_attempts_witness :
  let o := {| max_retries := 5; base_delay := 1; max_delay := 10; jitter := false |} in
  with_retry (flaky 2) (Some o) (fun _ => 0) no_effect 0%nat
  = (Return "ok"%string, 3%nat, {| calls := 3; sleeps := [1; 2] |}).
Proof.
  intros o.
  rewrite (proj1 (proj2 (proj1 with_retry_attempts string nat (flaky 2) o
                           (fun _ => 0) no_effect 0%nat)) 2%nat "ok"%string).
  - reflexivity.
  - simpl. lia.
  - intros j Hj. now apply flaky_retried.
  - apply flaky_succeeds.
Defined.




End RetryTheory.

(** ** Properties of the gateway client *)
Module ClientTheory.
Import Errors Retry Client Spec.

Local Open Scope string_scope.

Section Environment.
Variable transport : World -> Request -> TransportOutcome.
Variable clock_ms : World -> Z.
Variable random_suffix : World -> string.
Variable random_random : World -> nat -> Q.
Variable isoformat_in : World -> Z -> PyResult string.
Variable b64decode_decode : string -> option string.
Variable json_loads : string -> option PyVal.
Variable json_dumps : PyVal -> string.
Variable proxy_response_data : PyVal -> PyResult PyVal.

(** A token that carries an issue time is not the empty string. *)
Lemma embedded_iat_truthy (token : string) (iat : Q) :
  embedded_iat b64decode_decode json_loads token = Some iat ->
  py_truthy (PyStr token) = true.
Proof. destruct token; [discriminate | reflexivity]. Qed.

(** The age the client computes is the clock reading minus the issue time. *)
Lemma token_age_of_embedded_iat (w : World) (token : string) (iat : Q) :
  embedded_iat b64decode_decode json_loads token = Some iat ->
  (_get_token_age clock_ms b64decode_decode json_loads w (PyStr token)
   == inject_Z (clock_ms w) - iat * inject_Z 1000)%Q.
Proof.
  unfold embedded_iat, _get_token_age.
  destruct (split_on "." token) as [|p0 [|part rest]]; try discriminate.
  cbn [List.length Nat.leb nth_error].
  destruct (b64decode_decode (part ++ "==")) as [text|]; [|discriminate].
  destruct (json_loads text) as [[| | | | | |kv]|]; try discriminate.
  unfold py_in, py_getitem.
  destruct (dict_lookup "iat" kv) as [[| |z|q| | |]|]; try discriminate.
  - intros [= <-]. unfold age_from_iat.
    unfold Qeq, inject_Z. simpl. lia.
  - intros [= <-]. reflexivity.
Qed.

(** One run of [_request] hands the request to the transport once. *)
Lemma request_sent (req : Request) (w : World) :
  sent (snd (_request transport req w)) = (sent w ++ [req])%list.
Proof.
  unfold _request. destruct (transport w req) as [r|msg|cls]; try reflexivity.
  destruct (is_success r); [reflexivity|].
  destruct (match resp_content r with
            | EmptyString => _
            | String _ _ => _
            end) as [d|e]; [|reflexivity].
  destruct (py_get d _ _) as [m|e]; [|reflexivity].
  destruct (create_error_from_response _ _ _); reflexivity.
Qed.

(** The pipeline over [_request] sends the same request once per attempt,
    and at least once when there is an attempt to make. *)
Lemma retry_loop_sent (req : Request) (options : RetryOptions) (rnd : nat -> Q)
    (l : list nat) :
  forall last w tr,
  exists n,
    sent (snd (fst (retry_loop (_request transport req) options rnd log_sleep
                      l last w tr)))
    = (sent w ++ repeat req n)%list /\
    (l <> [] -> (1 <= n)%nat).
Proof.
  induction l as [|attempt rest IH]; intros last w tr.
  - exists 0%nat. simpl. rewrite app_nil_r. split; [reflexivity | congruence].
  - cbn [retry_loop]. pose proof (request_sent req w) as Hs.
    destruct (_request transport req w) as [[r|e] w1]; simpl in Hs.
    + exists 1%nat. simpl. split; [exact Hs | lia].
    + destruct (negb (caught e)).
      { exists 1%nat. simpl. split; [exact Hs | lia]. }
      destruct (Nat.eqb attempt (max_retries options)).
      { exists 1%nat. simpl. split; [exact Hs | lia]. }
      destruct (gives_up_on e).
      { exists 1%nat. simpl. split; [exact Hs | lia]. }
      destruct (IH (Some e) (log_sleep (calculate_delay attempt options (rnd attempt)) w1)
                  (record_sleep (calculate_delay attempt options (rnd attempt))
                     (record_call tr))) as (n & Hn & _).
      exists (Datatypes.S n). rewrite Hn. simpl. rewrite Hs, <- app_assoc.
      split; [reflexivity | lia].
Qed.

(** [_make_request] hands its request to the transport at least once. *)
Lemma make_request_sent (self : GatewayClient) (path method : string)
    (body : option PyVal) (w : World) :
  exists req n,
    json req = body /\
    sent (snd (_make_request transport clock_ms random_suffix random_random
                 self path method body w))
    = (sent w ++ req :: repeat req n)%list.
Proof.
  unfold _make_request, with_retry, resolve_options. cbv zeta.
  set (req := {| method := method; url := _; json := body; headers := _ |}).
  destruct (retry_loop_sent req default_options (random_random w)
              (seq 0 (max_retries default_options + 1)) None w
              {| calls := 0; sleeps := [] |}) as (n & Hn & Hpos).
  destruct n as [|n]; [exfalso; assert (1 <= 0)%nat by (apply Hpos; discriminate); lia|].
  exists req, n. split; [reflexivity | exact Hn].
Qed.

(** [proxy] turns a token older than 24 hours away, the world untouched. *)
Lemma proxy_rejects_stale (self : GatewayClient) (tool action : string)
    (params override : PyVal) (token : string) (w : World) (age_ms : Q) :
  issued_before clock_ms b64decode_decode json_loads w token age_ms ->
  (inject_Z max_token_age_ms < age_ms)%Q ->
  proxy transport clock_ms random_suffix random_random isoformat_in
    b64decode_decode json_loads json_dumps proxy_response_data
    self tool action params (PyStr token) override w
  = (Raise (GatewayExn (GatewayTokenError
              (PyStr "Token is too old (older than 24h)") None)), w).
Proof.
  intros (iat & Hiat & Hage) Hold.
  pose proof (embedded_iat_truthy token iat Hiat) as Ht.
  pose proof (token_age_of_embedded_iat w token iat Hiat) as Ha.
  unfold proxy, token_or_fetch. rewrite Ht. cbn [negb]. unfold bind at 1 2. unfold ret at 1.
  rewrite Ht.
  destruct (Qlt_le_dec _ _) as [_|Hle]; [reflexivity|].
  exfalso. rewrite Ha, Hage in Hle. lra.
Qed.

(** [proxy_async] sends whatever non-empty token it is given. *)
Lemma proxy_async_sends (self : GatewayClient) (tool action : string)
    (params : PyVal) (token : string) (w : World) :
  py_truthy (PyStr token) = true ->
  token_sent w
    (snd (proxy_async transport clock_ms random_suffix random_random isoformat_in
            self tool action params (PyStr token) w))
    token.
Proof.
  intros Ht. unfold proxy_async, token_or_fetch. rewrite Ht. cbn [negb].
  unfold bind at 1. unfold ret at 1.
  match goal with
  | |- context [_make_request _ _ _ _ ?s ?p ?m (Some (PyDict ?b))] =>
      destruct (make_request_sent s p m (Some (PyDict b)) w) as (req & n & Hj & Hs);
      set (body := b) in *
  end.
  exists req, body, [], (repeat req n). split; [|split].
  - unfold bind.
    destruct (_make_request _ _ _ _ _ _ _ _ w) as [[r|e] w1]; simpl in Hs |- *;
      [|exact Hs].
    unfold lift. destruct (resp_json r) as [d|e]; [|exact Hs].
    destruct (py_getitem d "job_id"); exact Hs.
  - exact Hj.
  - reflexivity.
Qed.

(** C2.  Given a token whose issue time lies 25 hours before the clock
    reading, [proxy] raises the Token error and hands no request to the
    transport: the world, and with it the list of requests sent, is
    unchanged. *)
Theorem proxy_rejects_25h_old_token (self : GatewayClient) (tool action : string)
    (params override : PyVal) (token : string) (w : World) :
  issued_before clock_ms b64decode_decode json_loads w token
    (inject_Z (25 * 60 * 60 * 1000)) ->
  proxy transport clock_ms random_suffix random_random isoformat_in
    b64decode_decode json_loads json_dumps proxy_response_data
    self tool action params (PyStr token) override w
  = (Raise (GatewayExn (GatewayTokenError
              (PyStr "Token is too old (older than 24h)") None)), w) /\
  sent (snd (proxy transport clock_ms random_suffix random_random isoformat_in
               b64decode_decode json_loads json_dumps proxy_response_data
               self tool action params (PyStr token) override w))
  = sent w.
Proof.
  intros H.
  rewrite (proxy_rejects_stale self tool action params override token w _ H).
  - split; reflexivity.
  - reflexivity.
Qed.

(** C1.  Given a token whose issue time lies more than 24 hours before the
    clock reading, [proxy] raises the Token error with nothing sent, but
    [proxy_async] runs no age check and hands the transport a request that
    carries the token. *)
Theorem proxy_async_sends_stale_token (self : GatewayClient) (tool action : string)
    (params override : PyVal) (token : string) (w : World) (age_ms : Q) :
  issued_before clock_ms b64decode_decode json_loads w token age_ms ->
  (inject_Z max_token_age_ms < age_ms)%Q ->
  proxy transport clock_ms random_suffix random_random isoformat_in
    b64decode_decode json_loads json_dumps proxy_response_data
    self tool action params (PyStr token) override w
  = (Raise (GatewayExn (GatewayTokenError
              (PyStr "Token is too old (older than 24h)") None)), w) /\
  token_sent w
    (snd (proxy_async transport clock_ms random_suffix random_random isoformat_in
            self tool action params (PyStr token) w))
    token.
Proof.
  intros H Hold. split.
  - exact (proxy_rejects_stale self tool action params override token w age_ms H Hold).
  - apply proxy_async_sends. destruct H as (iat & Hiat & _).
    exact (embedded_iat_truthy token iat Hiat).
Qed.

End Environment.

Import Mock.

Lemma proxy_rejects_25h_old_token_witness :
  proxy mock_transport mock_clock_ms mock_random_suffix mock_random_random
    mock_isoformat_in mock_b64decode_decode mock_json_loads mock_json_dumps
    mock_proxy_response_data mock_client "search" "query" (PyDict [])
    (PyStr stale_token) PyNone empty_world
  = (Raise (GatewayExn (GatewayTokenError
              (PyStr "Token is too old (older than 24h)") None)), empty_world).
Proof.
  apply (proxy_rejects_25h_old_token mock_transport mock_clock_ms mock_random_suffix
           mock_random_random mock_isoformat_in mock_b64decode_decode mock_json_loads
           mock_json_dumps mock_proxy_response_data mock_client "search" "query"
           (PyDict []) PyNone stale_token empty_world).
  exists 0%Q. split; reflexivity.
Defined.

Lemma proxy_async_sends_stale_token_witness :
  token_sent empty_world
    (snd (proxy_async mock_transport mock_clock_ms mock_random_suffix mock_random_random
            mock_isoformat_in mock_client "search" "query" (PyDict [])
            (PyStr stale_token) empty_world))
    stale_token.
Proof.
  apply (proxy_async_sends_stale_token mock_transport mock_clock_ms mock_random_suffix
           mock_random_random mock_isoformat_in mock_b64decode_decode mock_json_loads
           mock_json_dumps mock_proxy_response_data mock_client "search" "query"
           (PyDict []) PyNone stale_token empty_world (inject_Z (25 * 60 * 60 * 1000))).
  - exists 0%Q. split; reflexivity.
  - reflexivity.
Defined.

(** The run of [proxy_async] on the stale token against the test double: one
    request goes out, carrying the token, and the job id comes back. *)
Example proxy_async_stale_token_run :
  let out := proxy_async mock_transport mock_clock_ms mock_random_suffix
               mock_random_random mock_isoformat_in mock_client "search" "query"
               (PyDict []) (PyStr stale_token) empty_world in
  fst out = Return (PyDict [("job_id", PyStr "job-1")]) /\
  map json (sent (snd out))
  = [Some (PyDict [("agent_token", PyStr stale_token); ("tool", PyStr "search");
                   ("action", PyStr "query"); ("params", PyDict []);
                   ("async", PyBool true)])].
Proof. split; reflexivity. Qed.

(** A 429 with an integer Retry-After is classified and not retried: one
    request goes out. *)
Example rate_limited_request_sent_once :
  let out := _make_request (mock_transport_429 "30") mock_clock_ms mock_random_suffix
               mock_random_random mock_client "/api/jobs/7" "GET" None empty_world in
  fst out = Raise (GatewayExn (GatewayRateLimitError (PyStr "rate limit exceeded")
                                 (Some 30%Z) (Some 429%Z))) /\
  List.length (sent (snd out)) = 1%nat.
Proof. split; reflexivity. Qed.

(** A 429 whose Retry-After is not an integer leaves the classifier as a
    [ValueError], which the pipeline retries like any other exception: four
    requests go out. *)
Example rate_limited_malformed_header_retried :
  let out := _make_request (mock_transport_429 "soon") mock_clock_ms mock_random_suffix
               mock_random_random mock_client "/api/jobs/7" "GET" None empty_world in
  fst out = Raise (OtherExn "ValueError") /\
  List.length (sent (snd out)) = 4%nat.
Proof. split; reflexivity. Qed.

End ClientTheory.

(** ** Further properties of the retry policy and of the pipeline *)
Module RetryMore.
Import Errors Retry Spec More.

Local Open Scope Q_scope.

Section Run.
Context {A S : Type}.
Variable fn : S -> PyResult A * S.
Variable options : RetryOptions.
Variable rnd : nat -> Q.
Variable sleep : Q -> S -> S.

(** From any attempt index the loop ends on some later invocation, with that
    invocation's outcome and state, having slept once per earlier attempt. *)
Lemma retry_loop_ends (s : S) (rem : nat) :
  forall m last,
    (m + rem = max_retries options + 1)%nat -> (1 <= rem)%nat ->
    exists n,
      (m < n <= max_retries options + 1)%nat /\
      retry_loop fn options rnd sleep (seq m rem) last
        (state_before fn options rnd sleep m s)
        {| calls := m; sleeps := delays options rnd m |}
      = (outcome fn options rnd sleep (n - 1) s,
         state_after fn options rnd sleep (n - 1) s,
         {| calls := n; sleeps := delays options rnd (n - 1) |}).
Proof.
  induction rem as [|rem IH]; intros m last Hsum Hpos; [lia|].
  cbn [seq retry_loop]. unfold outcome, state_after.
  destruct (fn (state_before fn options rnd sleep m s)) as [res s1] eqn:Efn.
  assert (Hhere : (Datatypes.S m - 1 = m)%nat) by lia.
  destruct res as [a|e].
  { exists (Datatypes.S m). rewrite Hhere, Efn. split; [lia | reflexivity]. }
  destruct (negb (caught e)).
  { exists (Datatypes.S m). rewrite Hhere, Efn. split; [lia | reflexivity]. }
  destruct (Nat.eqb_spec m (max_retries options)) as [Hm|Hm].
  { exists (Datatypes.S m). rewrite Hhere, Efn. split; [lia | reflexivity]. }
  destruct (gives_up_on e).
  { exists (Datatypes.S m). rewrite Hhere, Efn. split; [lia | reflexivity]. }
  destruct (IH (Datatypes.S m) (Some e)) as (n & Hn & Hrun); [lia | lia |].
  exists n. split; [lia|].
  cbn [state_before] in Hrun. rewrite Efn in Hrun. simpl snd in Hrun.
  unfold delays in Hrun at 1. rewrite seq_S, map_app in Hrun. exact Hrun.
Qed.


(** X2.  A Gateway error that is not retryable ends the run at whichever
    attempt raises it: after retried failures on the attempts before [k], it
    is raised after exactly [k + 1] invocations, with no sleep after it. *)
Theorem with_retry_stops_at_non_retryable (k : nat) (e : GatewayError) (s : S) :
  (k <= max_retries options)%nat ->
  (forall j, (j < k)%nat -> retried (outcome fn options rnd sleep j s)) ->
  outcome fn options rnd sleep k s = Raise (GatewayExn e) ->
  is_retryable_error e = false ->
  with_retry fn (Some options) rnd sleep s
  = (Raise (GatewayExn e), state_after fn options rnd sleep k s,
     {| calls := k + 1; sleeps := delays options rnd k |}).
Proof.
  intros Hk Hall Hout Hno.
  destruct (RetryTheory.with_retry_reaches fn options rnd sleep k s Hk Hall)
    as [last ->].
  replace (max_retries options + 1 - k)%nat
    with (Datatypes.S (max_retries options - k)) by lia.
  cbn [seq retry_loop]. unfold outcome in Hout. unfold state_after.
  destruct (fn (state_before fn options rnd sleep k s)) as [res s1].
  simpl in Hout. subst res. cbn [gives_up_on]. rewrite Hno. cbn [negb snd].
  unfold record_call. cbn [calls sleeps]. rewrite Nat.add_1_r.
  destruct (Nat.eqb k (max_retries options)); reflexivity.
Qed.


(** X23.  An exception that is no instance of [Exception] ([KeyboardInterrupt],
    [SystemExit], [asyncio.CancelledError]) passes through the pipeline at
    whichever attempt raises it: after retried failures on the attempts
    before [k], it leaves the run after exactly [k + 1] invocations, with no
    sleep after it, however many retries remain. *)
Theorem with_retry_lets_through_uncaught (k : nat) (cls : string) (s : S) :
  (k <= max_retries options)%nat ->
  (forall j, (j < k)%nat -> retried (outcome fn options rnd sleep j s)) ->
  outcome fn options rnd sleep k s = Raise (BaseExn cls) ->
  with_retry fn (Some options) rnd sleep s
  = (Raise (BaseExn cls), state_after fn options rnd sleep k s,
     {| calls := k + 1; sleeps := delays options rnd k |}).
Proof.
  intros Hk Hall Hout.
  destruct (RetryTheory.with_retry_reaches fn options rnd sleep k s Hk Hall)
    as [last ->].
  replace (max_retries options + 1 - k)%nat
    with (Datatypes.S (max_retries options - k)) by lia.
  cbn [seq retry_loop]. unfold outcome in Hout. unfold state_after.
  destruct (fn (state_before fn options rnd sleep k s)) as [res s1].
  simpl in Hout. subst res. cbn [caught negb snd].
  unfold record_call. cbn [calls sleeps]. rewrite Nat.add_1_r. reflexivity.
Qed.

End Run.



Lemma with_retry_lets_through_uncaught_witness :
  let o := {| max_retries := 5; base_delay := 1; max_delay := 10; jitter := false |} in
  let fn := fun count : nat =>
              (if (count <? 1)%nat then Raise (OtherExn "ValueError")
               else Raise (BaseExn "CancelledError") : PyResult string,
               Datatypes.S count) in
  with_retry fn (Some o) (fun _ => 0) no_effect 0%nat
  = (Raise (BaseExn "CancelledError"), 2%nat, {| calls := 2; sleeps := [1] |}).
Proof.
  intros o fn.
  rewrite (with_retry_lets_through_uncaught fn o (fun _ => 0) no_effect 1
             "CancelledError" 0%nat).
  - reflexivity.
  - simpl. lia.
  - intros j Hj. destruct j as [|j]; [|lia].
    exists (OtherExn "ValueError"). repeat split; reflexivity.
  - reflexivity.
Defined.

Lemma with_retry_stops_at_non_retryable_witness :
  let o := {| max_retries := 5; base_delay := 1; max_delay := 10; jitter := false |} in
  let denied := GatewayAuthError (PyStr "denied") (Some 403%Z) in
  let fn := fun count : nat =>
              (if (count <? 2)%nat then Raise (OtherExn "ValueError")
               else Raise (GatewayExn denied) : PyResult string, Datatypes.S count) in
  with_retry fn (Some o) (fun _ => 0) no_effect 0%nat
  = (Raise (GatewayExn denied), 3%nat, {| calls := 3; sleeps := [1; 2] |}).
Proof.
  intros o denied fn.
  rewrite (with_retry_stops_at_non_retryable fn o (fun _ => 0) no_effect 2 denied 0%nat).
  - reflexivity.
  - simpl. lia.
  - intros j Hj. destruct j as [|[|j]]; [| |lia];
      (exists (OtherExn "ValueError"); repeat split; reflexivity).
  - reflexivity.
  - reflexivity.
Defined.


(** *** Bounds on the backoff delay *)

Lemma py_min_le_r (a b : Q) : py_min a b <= b.
Proof. unfold py_min. destruct (Qlt_le_dec b a); lra. Qed.

Lemma py_min_mono_l (a a' b : Q) : a <= a' -> py_min a b <= py_min a' b.
Proof.
  intros H. unfold py_min.
  destruct (Qlt_le_dec b a), (Qlt_le_dec b a'); lra.
Qed.

Lemma pow2_pos (i : nat) : 0 < pow2 i.
Proof.
  unfold pow2. change 0 with (inject_Z 0). rewrite <- Zlt_Qlt.
  apply Z.pow_pos_nonneg; lia.
Qed.

Lemma pow2_mono (i j : nat) : (i <= j)%nat -> pow2 i <= pow2 j.
Proof.
  intros H. unfold pow2. rewrite <- Zle_Qle. apply Z.pow_le_mono_r; lia.
Qed.

(** X4.  With jitter off the delay never exceeds [max_delay], and for a
    non-negative [base_delay] it never shrinks from one attempt to a later
    one. *)
Theorem calculate_delay_capped_and_monotone
    (options : RetryOptions) (i j : nat) (r r' : Q) :
  jitter options = false ->
  calculate_delay i options r <= max_delay options /\
  (0 <= base_delay options -> (i <= j)%nat ->
   calculate_delay i options r <= calculate_delay j options r').
Proof.
  intros Hj. unfold calculate_delay. rewrite Hj. split.
  - apply py_min_le_r.
  - intros Hb Hij. apply py_min_mono_l.
    pose proof (pow2_mono i j Hij). nra.
Qed.

Lemma calculate_delay_capped_and_monotone_witness :
  let o := {| max_retries := 3; base_delay := 1; max_delay := 10; jitter := false |} in
  calculate_delay 2 o 0 <= calculate_delay 7 o 0.
Proof.
  intros o.
  apply (proj2 (calculate_delay_capped_and_monotone o 2 7 0 0 eq_refl)).
  - discriminate.
  - lia.
Defined.

(** X5.  With jitter on, [max_delay] is not a hard cap: for a draw above one
    half the delay exceeds [max_delay] as soon as the exponential term has
    reached it, though never by more than an eighth. *)
Theorem calculate_delay_jitter_exceeds_cap
    (options : RetryOptions) (i : nat) (r : Q) :
  jitter options = true ->
  0 <= r -> r < 1 -> 0 <= max_delay options ->
  calculate_delay i options r <= (9 # 8) * max_delay options /\
  (0 < max_delay options ->
   max_delay options <= base_delay options * pow2 i ->
   1 # 2 < r ->
   max_delay options < calculate_delay i options r).
Proof.
  intros Hj Hr0 Hr1 Hmax. unfold calculate_delay. rewrite Hj.
  pose proof (py_min_le_r (base_delay options * pow2 i) (max_delay options)) as Hd.
  set (d := py_min (base_delay options * pow2 i) (max_delay options)) in *.
  split.
  - unfold py_max. destruct (Qlt_le_dec 0 _); nra.
  - intros Hpos Hreach Hhalf.
    assert (Hdm : d == max_delay options).
    { subst d. unfold py_min.
      destruct (Qlt_le_dec (max_delay options) (base_delay options * pow2 i)); lra. }
    unfold py_max. destruct (Qlt_le_dec 0 _) as [_|Hle]; nra.
Qed.

Lemma calculate_delay_jitter_exceeds_cap_witness :
  max_delay default_options < calculate_delay 4 default_options (9 # 10).
Proof.
  apply (proj2 (calculate_delay_jitter_exceeds_cap default_options 4 (9 # 10)
                  eq_refl ltac:(discriminate) eq_refl ltac:(discriminate)));
    [reflexivity | discriminate | reflexivity].
Defined.

Lemma calculate_delay_upper (options : RetryOptions) (i : nat) (r : Q) :
  0 <= r -> r < 1 -> 0 <= max_delay options ->
  calculate_delay i options r <= (9 # 8) * max_delay options.
Proof.
  intros Hr0 Hr1 Hmax. unfold calculate_delay.
  pose proof (py_min_le_r (base_delay options * pow2 i) (max_delay options)) as Hd.
  set (d := py_min (base_delay options * pow2 i) (max_delay options)) in *.
  destruct (jitter options); [|lra].
  unfold py_max. destruct (Qlt_le_dec 0 _); nra.
Qed.

Lemma total_sleep_app (l l' : list Q) :
  total_sleep (l ++ l') == total_sleep l + total_sleep l'.
Proof.
  induction l as [|x l IH]; simpl; [lra|]. rewrite IH. lra.
Qed.

Lemma total_sleep_delays (options : RetryOptions) (rnd : nat -> Q) (n : nat) :
  (forall i, 0 <= rnd i /\ rnd i < 1) -> 0 <= max_delay options ->
  total_sleep (delays options rnd n)
  <= inject_Z (Z.of_nat n) * ((9 # 8) * max_delay options).
Proof.
  intros Hr Hmax. induction n as [|n IH].
  - unfold delays. cbn [seq map total_sleep fold_right Z.of_nat].
    change (inject_Z 0) with 0. lra.
  - unfold delays in *. rewrite seq_S, map_app, total_sleep_app.
    cbn [Nat.add map total_sleep fold_right].
    pose proof (calculate_delay_upper options n (rnd n)
                  (proj1 (Hr n)) (proj2 (Hr n)) Hmax) as Hn.
    rewrite Nat2Z.inj_succ. unfold Z.succ. rewrite inject_Z_plus.
    change (inject_Z 1) with 1. lra.
Qed.

(** X6.  A run never spends more than [max_retries * 1.125 * max_delay] in
    backoff, whatever the operation does (for a non-negative [max_delay] and
    draws in [[0, 1)]); with the default options that is 33.75 seconds. *)
Theorem with_retry_total_sleep_bounded
    (A S : Type) (fn : S -> PyResult A * S) (options : RetryOptions)
    (rnd : nat -> Q) (sleep : Q -> S -> S) (s : S) :
  (forall i, 0 <= rnd i /\ rnd i < 1) -> 0 <= max_delay options ->
  total_sleep (sleeps (snd (with_retry fn (Some options) rnd sleep s)))
  <= inject_Z (Z.of_nat (max_retries options)) * ((9 # 8) * max_delay options) /\
  inject_Z (Z.of_nat (max_retries default_options))
  * ((9 # 8) * max_delay default_options) == 3375 # 100.
Proof.
  intros Hr Hmax. split; [|reflexivity].
  destruct (retry_loop_ends fn options rnd sleep s (max_retries options + 1) 0%nat None)
    as (n & Hn & Hrun); [lia | lia |].
  unfold with_retry, resolve_options. cbv zeta.
  change (delays options rnd 0) with (@nil Q) in Hrun. cbn [state_before] in Hrun.
  rewrite Hrun. cbn [snd sleeps].
  eapply Qle_trans; [apply total_sleep_delays; assumption|].
  assert (Hle : inject_Z (Z.of_nat (n - 1)) <= inject_Z (Z.of_nat (max_retries options))).
  { rewrite <- Zle_Qle. lia. }
  nra.
Qed.

Lemma with_retry_total_sleep_bounded_witness :
  total_sleep (sleeps (snd (with_retry (always_raises (OtherExn "ValueError"))
                              (Some default_options) (fun _ => 9 # 10) no_effect 0%nat)))
  <= inject_Z (Z.of_nat 3) * ((9 # 8) * 10).
Proof.
  apply (with_retry_total_sleep_bounded string nat
           (always_raises (OtherExn "ValueError")) default_options
           (fun _ => 9 # 10) no_effect 0%nat).
  - intros i. split; [discriminate | reflexivity].
  - discriminate.
Defined.

End RetryMore.

(** ** Further properties of the error classifier *)
Module ErrorsMore.
Import Errors Retry Spec.

Local Open Scope string_scope.

(** Reading the Retry-After header raises nothing but [ValueError]. *)
Lemma retry_after_seconds_raises (ra : option string) (x : PyExn) :
  retry_after_seconds ra = Raise x -> x = OtherExn "ValueError".
Proof.
  unfold retry_after_seconds. destruct ra as [[|c s]|]; try discriminate.
  destruct (py_int (String c s)); [discriminate|]. intros [= <-]. reflexivity.
Qed.

(** A header that gives a delay in seconds is read as that number. *)
Lemma retry_after_seconds_delay (s : string) (n : Z) :
  delay_seconds s = Some n -> retry_after_seconds (Some s) = Return (Some n).
Proof.
  intros H. unfold retry_after_seconds.
  rewrite (ErrorsTheory.py_int_delay_seconds s n H).
  destruct s; [discriminate | reflexivity].
Qed.

(** What the classifier returns keeps the status and the message, and is
    retryable exactly for a status of 500 or more. *)
Lemma classifier_result (sc : Z) (msg : PyVal) (ra : option string) (e : GatewayError) :
  create_error_from_response sc msg ra = Return e ->
  message e = msg /\ status_code e = Some sc /\
  kind e <> Network /\ kind e <> Token /\
  (is_retryable_error e = true <-> (500 <= sc)%Z).
Proof.
  unfold create_error_from_response.
  destruct (Z.eqb_spec sc 401) as [->|N401].
  { intros [= <-]. repeat split; try discriminate; simpl; lia. }
  destruct (Z.eqb_spec sc 403) as [->|N403].
  { intros [= <-]. repeat split; try discriminate; simpl; lia. }
  simpl orb at 1. cbv iota.
  destruct (Z.eqb_spec sc 429) as [->|N429].
  { destruct (retry_after_seconds ra); intros [= <-].
    repeat split; try discriminate; simpl; lia. }
  destruct (Z.eqb_spec sc 400) as [->|N400].
  { destruct (py_lower msg) as [low|x]; [|discriminate].
    destruct (contains "policy" low || contains "scope" low); intros [= <-];
      repeat split; try discriminate; simpl; lia. }
  destruct (Z.eqb_spec sc 502) as [->|N502].
  { intros [= <-]. repeat split; try discriminate; simpl; lia. }
  destruct (Z.eqb_spec sc 503) as [->|N503].
  { intros [= <-]. repeat split; try discriminate; simpl; lia. }
  destruct (Z.eqb_spec sc 504) as [->|N504].
  { intros [= <-]. repeat split; try discriminate; simpl; lia. }
  intros [= <-]. repeat split; try discriminate.
  - unfold is_retryable_error, status_at_least_500. simpl.
    destruct (Z.eqb_spec sc 0), (Z.leb_spec 500 sc); simpl; intros; try discriminate; lia.
  - unfold is_retryable_error, status_at_least_500. simpl.
    destruct (Z.eqb_spec sc 0), (Z.leb_spec 500 sc); simpl; intros; try reflexivity; lia.
Qed.

(** X7.  An error the classifier builds is retryable exactly when the status
    is 500 or more, whatever the message and the header: every 4xx response
    (401, 403, 429, 400 and the rest) is final, every 5xx response is tried
    again. *)
Theorem classified_error_retryable_iff_5xx
    (sc : Z) (msg : PyVal) (ra : option string) (e : GatewayError) :
  create_error_from_response sc msg ra = Return e ->
  (is_retryable_error e = true <-> (500 <= sc)%Z).
Proof. intros H. apply (classifier_result sc msg ra e H). Qed.

Lemma classified_error_retryable_iff_5xx_witness :
  is_retryable_error (GatewayErrorBase (PyStr "boom") (Some 500%Z) None) = true
  <-> (500 <= 500)%Z.
Proof.
  apply (classified_error_retryable_iff_5xx 500 (PyStr "boom") None
           (GatewayErrorBase (PyStr "boom") (Some 500%Z) None)).
  reflexivity.
Defined.

(** X8.  The classifier raises only on a 429 and on a 400: for every other
    status it returns.  On a 400 it returns for a message that is a string
    and raises [AttributeError] for any other.  On a 429 it returns the
    RateLimit error with [retry_after] unset when the Retry-After header is
    absent or empty, and with [retry_after] the number written when the
    header is a delay in seconds (one to 4300 of the digits 0 to 9); what it
    raises there is a [ValueError].  Whatever it returns carries the given
    status and message and is never a Network or a Token error. *)
Theorem create_error_from_response_raises_only
    (sc : Z) (msg : PyVal) (ra : option string) :
  (sc <> 429%Z -> sc <> 400%Z ->
   exists e, create_error_from_response sc msg ra = Return e) /\
  (sc = 400%Z ->
   ((exists t, msg = PyStr t) ->
    exists e, create_error_from_response sc msg ra = Return e) /\
   ((forall t, msg <> PyStr t) ->
    create_error_from_response sc msg ra = Raise (OtherExn "AttributeError"))) /\
  (sc = 429%Z ->
   (ra = None \/ ra = Some EmptyString ->
    create_error_from_response sc msg ra
    = Return (GatewayRateLimitError msg None (Some 429%Z))) /\
   (forall s n, ra = Some s -> delay_seconds s = Some n ->
                create_error_from_response sc msg ra
                = Return (GatewayRateLimitError msg (Some n) (Some 429%Z))) /\
   (forall x, create_error_from_response sc msg ra = Raise x ->
              x = OtherExn "ValueError")) /\
  (forall e, create_error_from_response sc msg ra = Return e ->
             message e = msg /\ status_code e = Some sc /\
             kind e <> Network /\ kind e <> Token).
Proof.
  split; [|split; [|split]].
  - intros N429 N400. unfold create_error_from_response.
    destruct (sc =? 401)%Z; [eexists; reflexivity|].
    destruct (sc =? 403)%Z; [eexists; reflexivity|].
    simpl orb at 1. cbv iota.
    destruct (Z.eqb_spec sc 429); [contradiction|].
    destruct (Z.eqb_spec sc 400); [contradiction|].
    destruct (_ || _); eexists; reflexivity.
  - intros ->. split.
    + intros [t ->]. cbn [create_error_from_response py_lower Z.eqb orb Pos.eqb].
      destruct (contains "policy" (lower t) || contains "scope" (lower t));
        eexists; reflexivity.
    + intros H. destruct msg; try reflexivity. exfalso. eapply H. reflexivity.
  - intros ->. split; [|split].
    + intros [-> | ->]; reflexivity.
    + intros s n -> Hn. change (create_error_from_response 429 msg (Some s))
        with (match retry_after_seconds (Some s) with
              | Return seconds =>
                  Return (GatewayRateLimitError msg seconds (Some 429%Z))
              | Raise e => Raise e
              end).
      rewrite (retry_after_seconds_delay s n Hn). reflexivity.
    + intros x. change (create_error_from_response 429 msg ra)
        with (match retry_after_seconds ra with
              | Return seconds =>
                  Return (GatewayRateLimitError msg seconds (Some 429%Z))
              | Raise e => Raise e
              end).
      destruct (retry_after_seconds ra) as [v|y] eqn:E; [discriminate|].
      intros [= <-]. exact (retry_after_seconds_raises ra y E).
  - intros e H. pose proof (classifier_result sc msg ra e H). tauto.
Qed.

Lemma create_error_from_response_raises_only_witness :
  create_error_from_response 429 (PyStr "slow down") (Some "007")
  = Return (GatewayRateLimitError (PyStr "slow down") (Some 7%Z) (Some 429%Z)) /\
  create_error_from_response 400 (PyInt 7) None = Raise (OtherExn "AttributeError").
Proof.
  split.
  - apply (proj1 (proj2 (proj1 (proj2 (proj2
             (create_error_from_response_raises_only 429 (PyStr "slow down")
                (Some "007")))) eq_refl)) "007" 7%Z); reflexivity.
  - apply (proj2 (proj1 (proj2
             (create_error_from_response_raises_only 400 (PyInt 7) None)) eq_refl)).
    intros t. discriminate.
Defined.





End ErrorsMore.

(** ** Further properties of the gateway client *)
Module ClientMore.
Import Errors Retry Client Spec More.

Local Open Scope string_scope.

Section Environment.
Variable transport : World -> Request -> TransportOutcome.
Variable clock_ms : World -> Z.
Variable random_suffix : World -> string.
Variable random_random : World -> nat -> Q.
Variable isoformat_in : World -> Z -> PyResult string.
Variable b64decode_decode : string -> option string.
Variable json_loads : string -> option PyVal.
Variable json_dumps : PyVal -> string.
Variable proxy_response_data : PyVal -> PyResult PyVal.
Variable job_response : PyVal -> PyResult PyVal.

(** Whatever the transport answers, [_request] logs the request and nothing
    else. *)
Lemma request_world (req : Request) (w : World) :
  snd (_request transport req w) = log_request req w.
Proof.
  unfold _request. destruct (transport w req) as [r|msg|cls]; try reflexivity.
  destruct (is_success r); [reflexivity|].
  destruct (match resp_content r with
            | EmptyString => _
            | String _ _ => _
            end) as [d|e]; [|reflexivity].
  destruct (py_get d _ _) as [m|e]; [|reflexivity].
  destruct (create_error_from_response _ _ _); reflexivity.
Qed.

Lemma before_attempt (req : Request) (options : RetryOptions) (rnd : nat -> Q)
    (k : nat) (w : World) :
  state_before (_request transport req) options rnd log_sleep k w
  = {| sent := sent w ++ repeat req k;
       slept := slept w ++ delays options rnd k;
       printed := printed w |}.
Proof.
  induction k as [|k IH].
  - simpl. unfold delays. simpl. rewrite !app_nil_r. destruct w; reflexivity.
  - cbn [state_before]. rewrite request_world, IH.
    unfold log_sleep, log_request. cbn [sent slept printed].
    rewrite RetryTheory.delays_S, <- !app_assoc.
    rewrite <- repeat_cons. reflexivity.
Qed.

Lemma after_attempt (req : Request) (options : RetryOptions) (rnd : nat -> Q)
    (k : nat) (w : World) :
  state_after (_request transport req) options rnd log_sleep k w
  = {| sent := sent w ++ repeat req (Datatypes.S k);
       slept := slept w ++ delays options rnd k;
       printed := printed w |}.
Proof.
  unfold state_after. rewrite request_world, before_attempt.
  unfold log_request. cbn [sent slept printed].
  rewrite <- app_assoc, <- repeat_cons. reflexivity.
Qed.

(** One call of [_make_request] is some number [n] of attempts, between one
    and four, and ends as the last of them did. *)
Lemma make_request_run (self : GatewayClient) (path method : string)
    (body : option PyVal) (w : World) :
  exists n,
    (1 <= n <= 4)%nat /\
    _make_request transport clock_ms random_suffix random_random
      self path method body w
    = (outcome (_request transport (request_of clock_ms random_suffix self path method body w))
         default_options (random_random w) log_sleep (n - 1) w,
       after_attempts (request_of clock_ms random_suffix self path method body w) (random_random w) n w).
Proof.
  unfold _make_request. fold (request_of clock_ms random_suffix self path method body w).
  set (req := request_of clock_ms random_suffix self path method body w).
  destruct (RetryMore.retry_loop_ends (_request transport req) default_options
              (random_random w) log_sleep w
              (max_retries default_options + 1) 0%nat None)
    as (n & Hn & Hrun); [reflexivity | simpl; lia |].
  exists n. split; [simpl in Hn; lia|].
  unfold with_retry, resolve_options. cbv zeta.
  change (delays default_options (random_random w) 0) with (@nil Q) in Hrun.
  cbn [state_before] in Hrun. rewrite Hrun. cbn [fst].
  rewrite after_attempt. unfold after_attempts.
  replace (Datatypes.S (n - 1)) with n by lia. reflexivity.
Qed.

(** X9.  One call of [_make_request] makes between one and four attempts,
    and every attempt hands the transport the very same request: same method,
    URL and body, and the one correlation id generated before the first
    attempt.  Between attempts it sleeps once; it prints nothing. *)
Theorem make_request_attempts_share_request (self : GatewayClient)
    (path method : string) (body : option PyVal) (w : World) :
  let req := request_of clock_ms random_suffix self path method body w in
  let w' := snd (_make_request transport clock_ms random_suffix random_random
                   self path method body w) in
  exists n,
    (1 <= n <= 4)%nat /\
    sent w' = (sent w ++ repeat req n)%list /\
    List.length (slept w') = (List.length (slept w) + (n - 1))%nat /\
    printed w' = printed w /\
    extract_correlation_id (headers req)
    = Some (generate_correlation_id clock_ms random_suffix w).
Proof.
  intros req w'. destruct (make_request_run self path method body w) as (n & Hn & Hrun).
  exists n. subst w'. rewrite Hrun. cbn [snd after_attempts sent slept printed].
  repeat split; try lia.
  unfold delays. rewrite length_app, length_map, length_seq. reflexivity.
Qed.

(** A transport that fails makes [_request] raise the base [GatewayError]
    with code [NETWORK_ERROR], which the pipeline retries. *)
Lemma request_network_error (req : Request) (w : World) (msg : string) :
  transport w req = RequestError msg ->
  fst (_request transport req w)
  = Raise (GatewayExn (GatewayErrorBase (PyStr ("Network error: " ++ msg)) None
                         (Some "NETWORK_ERROR"))).
Proof. intros H. unfold _request. rewrite H. reflexivity. Qed.

(** X10.  When the transport fails on every attempt (connection refused,
    timeout), [_make_request] makes all four attempts with three sleeps
    between them and then raises a base [GatewayError] with code
    [NETWORK_ERROR], no status, and as message "Network error: " followed by
    the text with which the fourth attempt failed. *)
Theorem make_request_transport_down (self : GatewayClient)
    (path method : string) (body : option PyVal) (w : World) (msg : string) :
  let req := request_of clock_ms random_suffix self path method body w in
  (forall w' req', exists m, transport w' req' = RequestError m) ->
  transport (before_attempts req (random_random w) 3 w) req = RequestError msg ->
  _make_request transport clock_ms random_suffix random_random
    self path method body w
  = (Raise (GatewayExn (GatewayErrorBase (PyStr ("Network error: " ++ msg)) None
                          (Some "NETWORK_ERROR"))),
     after_attempts req (random_random w) 4 w).
Proof.
  intros req Hdown Hmsg. unfold _make_request.
  fold (request_of clock_ms random_suffix self path method body w). fold req.
  change (with_retry (_request transport req) None (random_random w) log_sleep w)
    with (with_retry (_request transport req) (Some default_options)
            (random_random w) log_sleep w).
  rewrite (RetryTheory.with_retry_exhausted (_request transport req) default_options
             (random_random w) log_sleep
             (GatewayExn (GatewayErrorBase (PyStr ("Network error: " ++ msg)) None
                            (Some "NETWORK_ERROR"))) w).
  - cbn [fst]. rewrite after_attempt. reflexivity.
  - intros j _. unfold outcome.
    destruct (Hdown (state_before (_request transport req) default_options
                       (random_random w) log_sleep j w) req) as [m Hm].
    rewrite (request_network_error _ _ m Hm). eexists. repeat split; reflexivity.
  - unfold outcome. cbn [max_retries default_options]. rewrite before_attempt.
    exact (request_network_error _ _ msg Hmsg).
Qed.

(** A response that is not a success makes [_request] raise what the
    classifier builds from its status, message and Retry-After header. *)
Lemma request_classified (req : Request) (w : World) (r : Response)
    (m : PyVal) (e : GatewayError) :
  transport w req = Responded r ->
  is_success r = false ->
  error_message_of r = Return m ->
  create_error_from_response (resp_status_code r) m
    (resp_headers_get r "Retry-After") = Return e ->
  fst (_request transport req w) = Raise (GatewayExn e).
Proof.
  intros Ht Hs Hm He. unfold _request. rewrite Ht, Hs.
  unfold error_message_of in Hm.
  destruct (resp_content r).
  - injection Hm as <-. cbn [py_get dict_lookup String.eqb Ascii.eqb Bool.eqb].
    cbn. rewrite He. reflexivity.
  - destruct (resp_json r) as [d|x]; [|discriminate].
    rewrite Hm, He. reflexivity.
Qed.

(** X11.  When the gateway answers every attempt with the same response that
    is not a success, the error the classifier builds from it is raised after
    four attempts if the status is 500 or more and after a single attempt
    otherwise.  Its message is "Unknown error" for an empty body and
    "HTTP <status>" for a JSON object without an [error] member. *)
Theorem make_request_error_response (self : GatewayClient)
    (path method : string) (body : option PyVal) (w : World)
    (r : Response) (m : PyVal) (e : GatewayError) :
  (forall w' req, transport w' req = Responded r) ->
  is_success r = false ->
  error_message_of r = Return m ->
  create_error_from_response (resp_status_code r) m
    (resp_headers_get r "Retry-After") = Return e ->
  _make_request transport clock_ms random_suffix random_random
    self path method body w
  = (Raise (GatewayExn e),
     after_attempts (request_of clock_ms random_suffix self path method body w)
       (random_random w) (if (500 <=? resp_status_code r)%Z then 4 else 1) w) /\
  (resp_content r = EmptyString -> message e = PyStr "Unknown error") /\
  (forall kv, resp_content r <> EmptyString ->
              resp_json r = Return (PyDict kv) -> dict_lookup "error" kv = None ->
              message e = PyStr ("HTTP " ++ str_of_int (resp_status_code r))).
Proof.
  intros Hall Hs Hm He.
  pose proof (ErrorsMore.classifier_result _ _ _ _ He) as (Hmsg & _ & _ & _ & Hretry).
  split; [|split].
  - unfold _make_request.
    fold (request_of clock_ms random_suffix self path method body w).
    set (req := request_of clock_ms random_suffix self path method body w).
    assert (Hout : forall w', fst (_request transport req w') = Raise (GatewayExn e)).
    { intros w'. exact (request_classified req w' r m e (Hall w' req) Hs Hm He). }
    change (with_retry (_request transport req) None (random_random w) log_sleep w)
      with (with_retry (_request transport req) (Some default_options)
              (random_random w) log_sleep w).
    destruct (Z.leb_spec 500 (resp_status_code r)) as [H5|H4].
    + rewrite (RetryTheory.with_retry_exhausted (_request transport req)
                 default_options (random_random w) log_sleep (GatewayExn e) w).
      * cbn [fst]. rewrite after_attempt. reflexivity.
      * intros j _. unfold outcome. rewrite Hout. eexists.
        split; [reflexivity|]. split; [reflexivity|].
        simpl. rewrite (proj2 Hretry H5). reflexivity.
      * unfold outcome. apply Hout.
    + rewrite (RetryTheory.with_retry_gives_up (_request transport req)
                 default_options (random_random w) log_sleep (GatewayExn e) w).
      * cbn [fst]. rewrite request_world. unfold after_attempts, log_request.
        simpl. unfold delays. simpl. rewrite app_nil_r. reflexivity.
      * apply Hout.
      * simpl. destruct (is_retryable_error e); [|reflexivity].
        pose proof (proj1 Hretry eq_refl). lia.
  - intros Hc. unfold error_message_of in Hm. rewrite Hc in Hm.
    injection Hm as <-. exact Hmsg.
  - intros kv Hc Hj Hk. unfold error_message_of in Hm. rewrite Hj in Hm.
    destruct (resp_content r); [congruence|].
    cbn [py_get] in Hm. rewrite Hk in Hm. injection Hm as <-. exact Hmsg.
Qed.

Lemma match_true_other (X : Type) (a b : X) (h : string) :
  h <> "true" -> match h with "true" => a | _ => b end = b.
Proof.
  intros Hne.
  repeat (match goal with
          | |- match ?x with _ => _ end = _ => destruct x; try reflexivity
          end).
  exfalso. apply Hne. reflexivity.
Qed.

(** [proxy] with a token it accepts is one [_make_request] of the proxy
    body, then the validation of the response and the rotation notice. *)
Lemma proxy_fresh (self : GatewayClient) (tool action : string)
    (params override token : PyVal) (w : World) :
  py_truthy token = true ->
  (_get_token_age clock_ms b64decode_decode json_loads w token
   <= inject_Z max_token_age_ms)%Q ->
  proxy transport clock_ms random_suffix random_random isoformat_in
    b64decode_decode json_loads json_dumps proxy_response_data
    self tool action params token override w
  = match _make_request transport clock_ms random_suffix random_random self
            "/api/proxy-request" "POST"
            (Some (PyDict (proxy_body json_dumps self tool action params token override)))
            w with
    | (Raise e, w1) => (Raise e, w1)
    | (Return response, w1) =>
        match resp_json response with
        | Raise e => (Raise e, w1)
        | Return j =>
            match proxy_response_data j with
            | Raise e => (Raise e, w1)
            | Return data =>
                (Return data,
                 {| sent := sent w1; slept := slept w1;
                    printed := printed w1 ++ rotation_notice response |})
            end
        end
    end.
Proof.
  intros Ht Hage. unfold proxy, token_or_fetch. rewrite Ht. cbn [negb].
  unfold bind at 1 2. unfold ret at 1. rewrite Ht.
  destruct (Qlt_le_dec _ _) as [Hold|_]; [exfalso; lra|].
  fold (proxy_body json_dumps self tool action params token override).
  unfold bind at 1.
  destruct (_make_request _ _ _ _ _ _ _ _ w) as [[response|e] w1]; [|reflexivity].
  unfold bind at 1. unfold lift at 1.
  destruct (resp_json response) as [j|e]; [|reflexivity].
  unfold bind at 1. unfold lift at 1.
  destruct (proxy_response_data j) as [data|e]; [|reflexivity].
  unfold bind, ret, rotation_notice.
  destruct (resp_headers_get response "X-Token-Rotation-Recommended") as [h|].
  - destruct (String.eqb_spec h "true") as [->|Hne].
    + reflexivity.
    + rewrite (match_true_other _ _ _ _ Hne), (match_true_other _ _ _ _ Hne).
      destruct w1; simpl; rewrite app_nil_r; reflexivity.
  - destruct w1; simpl; rewrite app_nil_r; reflexivity.
Qed.

(** The age the client computes is 0 for a token whose payload it cannot
    read or that holds no [iat]. *)
Lemma token_age_unreadable (w : World) (token : string) :
  payload_of b64decode_decode json_loads token = None \/
  (exists kv, payload_of b64decode_decode json_loads token = Some (PyDict kv) /\
              dict_lookup "iat" kv = None) ->
  _get_token_age clock_ms b64decode_decode json_loads w (PyStr token) = 0%Q.
Proof.
  unfold payload_of, _get_token_age.
  destruct (split_on "." token) as [|p0 [|part rest]]; try reflexivity.
  cbn [List.length Nat.leb nth_error].
  destruct (b64decode_decode (part ++ "==")) as [text|]; [|reflexivity].
  destruct (json_loads text) as [payload|]; [|reflexivity].
  intros [H|(kv & H & Hk)]; [discriminate|].
  injection H as ->. cbn [py_in]. rewrite Hk. reflexivity.
Qed.

Lemma proxy_body_token (self : GatewayClient) (tool action : string)
    (params token override : PyVal) :
  dict_lookup "agent_token" (proxy_body json_dumps self tool action params token override)
  = Some token.
Proof. reflexivity. Qed.

(** [proxy] hands an accepted token to the transport, in one to four copies
    of the same request. *)
Lemma proxy_fresh_sent (self : GatewayClient) (tool action : string)
    (params override : PyVal) (token : string) (w : World) :
  py_truthy (PyStr token) = true ->
  (_get_token_age clock_ms b64decode_decode json_loads w (PyStr token)
   <= inject_Z max_token_age_ms)%Q ->
  exists n,
    (1 <= n <= 4)%nat /\
    sent (snd (proxy transport clock_ms random_suffix random_random isoformat_in
                 b64decode_decode json_loads json_dumps proxy_response_data
                 self tool action params (PyStr token) override w))
    = (sent w
       ++ repeat (request_of clock_ms random_suffix self "/api/proxy-request" "POST"
                    (Some (PyDict (proxy_body json_dumps self tool action params
                                     (PyStr token) override))) w) n)%list.
Proof.
  intros Ht Hage. rewrite (proxy_fresh _ _ _ _ _ _ _ Ht Hage).
  destruct (make_request_run self "/api/proxy-request" "POST"
              (Some (PyDict (proxy_body json_dumps self tool action params
                               (PyStr token) override))) w) as (n & Hn & Hrun).
  exists n. split; [exact Hn|]. rewrite Hrun.
  destruct (outcome _ _ _ _ _ _) as [response|e]; [|reflexivity].
  destruct (resp_json response) as [j|e]; [|reflexivity].
  destruct (proxy_response_data j); reflexivity.
Qed.

(** X12.  The age bound is strict and one-sided: [proxy] sends a token that
    is exactly 24 hours old, or younger, or issued in the future (one to four
    copies of the same request, each carrying the token). *)
Theorem proxy_sends_token_up_to_24h (self : GatewayClient) (tool action : string)
    (params override : PyVal) (token : string) (w : World) (age_ms : Q) :
  issued_before clock_ms b64decode_decode json_loads w token age_ms ->
  (age_ms <= inject_Z max_token_age_ms)%Q ->
  exists n body,
    (1 <= n <= 4)%nat /\
    dict_lookup "agent_token" body = Some (PyStr token) /\
    sent (snd (proxy transport clock_ms random_suffix random_random isoformat_in
                 b64decode_decode json_loads json_dumps proxy_response_data
                 self tool action params (PyStr token) override w))
    = (sent w
       ++ repeat (request_of clock_ms random_suffix self "/api/proxy-request" "POST"
                    (Some (PyDict body)) w) n)%list.
Proof.
  intros (iat & Hiat & Hage) Hfresh.
  pose proof (ClientTheory.embedded_iat_truthy b64decode_decode json_loads
                token iat Hiat) as Ht.
  pose proof (ClientTheory.token_age_of_embedded_iat clock_ms b64decode_decode
                json_loads w token iat Hiat) as Ha.
  destruct (proxy_fresh_sent self tool action params override token w Ht)
    as (n & Hn & Hs).
  { rewrite Ha, Hage. exact Hfresh. }
  exists n, (proxy_body json_dumps self tool action params (PyStr token) override).
  split; [exact Hn|]. split; [apply proxy_body_token | exact Hs].
Qed.

(** X13.  [proxy] never rejects a token it cannot date: a non-empty token
    with no second dot-separated part, with a payload that does not decode,
    or with a payload object that has no [iat], is sent whatever the clock
    says. *)
Theorem proxy_sends_undatable_token (self : GatewayClient) (tool action : string)
    (params override : PyVal) (token : string) (w : World) :
  token <> EmptyString ->
  payload_of b64decode_decode json_loads token = None \/
  (exists kv, payload_of b64decode_decode json_loads token = Some (PyDict kv) /\
              dict_lookup "iat" kv = None) ->
  exists n body,
    (1 <= n <= 4)%nat /\
    dict_lookup "agent_token" body = Some (PyStr token) /\
    sent (snd (proxy transport clock_ms random_suffix random_random isoformat_in
                 b64decode_decode json_loads json_dumps proxy_response_data
                 self tool action params (PyStr token) override w))
    = (sent w
       ++ repeat (request_of clock_ms random_suffix self "/api/proxy-request" "POST"
                    (Some (PyDict body)) w) n)%list.
Proof.
  intros Hne Hun.
  assert (Ht : py_truthy (PyStr token) = true) by (destruct token; [congruence | reflexivity]).
  destruct (proxy_fresh_sent self tool action params override token w Ht)
    as (n & Hn & Hs).
  { rewrite (token_age_unreadable w token Hun). discriminate. }
  exists n, (proxy_body json_dumps self tool action params (PyStr token) override).
  split; [exact Hn|]. split; [apply proxy_body_token | exact Hs].
Qed.

(** A success on the first attempt: [_make_request] returns the response
    after that one request. *)
Lemma make_request_success (self : GatewayClient) (path method : string)
    (body : option PyVal) (w : World) (r : Response) :
  transport w (request_of clock_ms random_suffix self path method body w)
  = Responded r ->
  is_success r = true ->
  _make_request transport clock_ms random_suffix random_random
    self path method body w
  = (Return r, log_request (request_of clock_ms random_suffix self path method body w) w).
Proof.
  intros Ht Hs. unfold _make_request.
  fold (request_of clock_ms random_suffix self path method body w).
  set (req := request_of clock_ms random_suffix self path method body w) in *.
  change (with_retry (_request transport req) None (random_random w) log_sleep w)
    with (with_retry (_request transport req) (Some default_options)
            (random_random w) log_sleep w).
  rewrite (RetryTheory.with_retry_first_success (_request transport req)
             default_options (random_random w) log_sleep 0 r w).
  - cbn [fst]. unfold state_after. cbn [state_before]. rewrite request_world. reflexivity.
  - simpl. lia.
  - intros j Hj. lia.
  - unfold outcome. cbn [state_before]. unfold _request. rewrite Ht, Hs. reflexivity.
Qed.

Lemma get_token_success (self : GatewayClient) (opts : TokenOptions) (w : World)
    (expires_at : string) (r : Response) (kv : list (string * PyVal)) :
  isoformat_in w (ttl_minutes opts * 60) = Return expires_at ->
  transport w (request_of clock_ms random_suffix self "/api/generate-token" "POST"
                 (Some (PyDict (token_request_body self opts expires_at))) w)
  = Responded r ->
  is_success r = true ->
  resp_json r = Return (PyDict kv) ->
  get_token transport clock_ms random_suffix random_random isoformat_in self opts w
  = (match dict_lookup "agent_token" kv with
     | Some t => Return t
     | None => Raise (OtherExn "KeyError")
     end,
     log_request (request_of clock_ms random_suffix self "/api/generate-token" "POST"
                    (Some (PyDict (token_request_body self opts expires_at))) w) w).
Proof.
  intros Hiso Ht Hs Hj. unfold get_token. rewrite Hiso.
  fold (token_request_body self opts expires_at).
  unfold bind at 1. rewrite (make_request_success _ _ _ _ _ _ Ht Hs).
  unfold bind, lift. rewrite Hj. cbn [py_getitem].
  destruct (dict_lookup "agent_token" kv); reflexivity.
Qed.

(** X14.  [get_token] first formats the expiry, [ttl_minutes] minutes from
    now; when that raises (a lifetime that leaves the range of [datetime]),
    the exception is raised and nothing is sent.  Otherwise, when the gateway
    answers the token request with a success whose JSON is an object,
    [get_token] returns the [agent_token] member after that single POST to
    [/api/generate-token], whose body carries the formatted expiry; when the
    member is missing it raises a bare [KeyError] (no Gateway error, and no
    retry). *)
Theorem get_token_reads_agent_token (self : GatewayClient) (opts : TokenOptions)
    (w : World) :
  (forall x, isoformat_in w (ttl_minutes opts * 60) = Raise x ->
             get_token transport clock_ms random_suffix random_random isoformat_in
               self opts w
             = (Raise x, w)) /\
  (forall expires_at r kv,
     let req := request_of clock_ms random_suffix self "/api/generate-token" "POST"
                  (Some (PyDict (token_request_body self opts expires_at))) w in
     isoformat_in w (ttl_minutes opts * 60) = Return expires_at ->
     transport w req = Responded r ->
     is_success r = true ->
     resp_json r = Return (PyDict kv) ->
     get_token transport clock_ms random_suffix random_random isoformat_in
       self opts w
     = (match dict_lookup "agent_token" kv with
        | Some t => Return t
        | None => Raise (OtherExn "KeyError")
        end,
        {| sent := sent w ++ [req]; slept := slept w; printed := printed w |}) /\
     url req = base_url self ++ "/api/generate-token" /\ method req = "POST" /\
     dict_lookup "expires_at" (token_request_body self opts expires_at)
     = Some (PyStr expires_at)).
Proof.
  split.
  - intros x Hx. unfold get_token. rewrite Hx. reflexivity.
  - intros expires_at r kv req Hiso Ht Hs Hj.
    split; [|repeat split; reflexivity].
    exact (get_token_success self opts w expires_at r kv Hiso Ht Hs Hj).
Qed.

Lemma proxy_fetch_failed (self : GatewayClient) (tool action : string)
    (params override agent_token : PyVal) (w w1 : World) (e : PyExn) :
  py_truthy agent_token = false ->
  get_token transport clock_ms random_suffix random_random isoformat_in self
    {| tools := [tool]; permissions := ["read"; "write"]; ttl_minutes := 10 |} w
  = (Raise e, w1) ->
  proxy transport clock_ms random_suffix random_random isoformat_in
    b64decode_decode json_loads json_dumps proxy_response_data
    self tool action params agent_token override w
  = (Raise e, w1).
Proof.
  intros Hf Hget. unfold proxy, token_or_fetch. rewrite Hf. cbn [negb].
  unfold bind at 1. rewrite Hget. reflexivity.
Qed.

Lemma proxy_fetch_then (self : GatewayClient) (tool action : string)
    (params override agent_token token : PyVal) (w w1 : World) :
  py_truthy agent_token = false ->
  get_token transport clock_ms random_suffix random_random isoformat_in self
    {| tools := [tool]; permissions := ["read"; "write"]; ttl_minutes := 10 |} w
  = (Return token, w1) ->
  py_truthy token = true ->
  proxy transport clock_ms random_suffix random_random isoformat_in
    b64decode_decode json_loads json_dumps proxy_response_data
    self tool action params agent_token override w
  = proxy transport clock_ms random_suffix random_random isoformat_in
      b64decode_decode json_loads json_dumps proxy_response_data
      self tool action params token override w1.
Proof.
  intros Hf Hget Ht. unfold proxy, token_or_fetch. rewrite Hf, Ht. cbn [negb].
  unfold bind at 1. rewrite Hget.
  unfold bind at 3. unfold ret at 2. reflexivity.
Qed.

(** X15.  [proxy] called without a token (or with an empty one) is
    [get_token] for the tool with permissions read and write and a 10-minute
    lifetime, followed by [proxy] with the token fetched; when the fetch
    raises, that exception is raised and no proxy request is made. *)
Theorem proxy_without_token_fetches (self : GatewayClient) (tool action : string)
    (params override agent_token : PyVal) (w : World) :
  py_truthy agent_token = false ->
  let fetch := get_token transport clock_ms random_suffix random_random isoformat_in
                 self {| tools := [tool]; permissions := ["read"; "write"];
                         ttl_minutes := 10 |} w in
  let run := proxy transport clock_ms random_suffix random_random isoformat_in
               b64decode_decode json_loads json_dumps proxy_response_data
               self tool action params in
  (forall e, fst fetch = Raise e -> run agent_token override w = (Raise e, snd fetch)) /\
  (forall token, fst fetch = Return token -> py_truthy token = true ->
                 run agent_token override w = run token override (snd fetch)).
Proof.
  intros Hf fetch run. subst run. split.
  - intros e He. apply proxy_fetch_failed; [exact Hf|].
    subst fetch. destruct (get_token _ _ _ _ _ _ _ w). simpl in *. congruence.
  - intros token Hr Ht. apply proxy_fetch_then; [exact Hf | | exact Ht].
    subst fetch. destruct (get_token _ _ _ _ _ _ _ w). simpl in *. congruence.
Qed.

(** X16.  A stale token that [proxy] fetched itself is rejected like a stale
    token of the caller: once the expiry of the token request is formatted,
    after the one token request, the Token error is raised and no proxy
    request goes out. *)
Theorem proxy_rejects_stale_fetched_token (self : GatewayClient) (tool action : string)
    (params override agent_token : PyVal) (w : World)
    (expires_at : string)
    (r : Response) (kv : list (string * PyVal)) (t : string) (age_ms : Q) :
  let opts := {| tools := [tool]; permissions := ["read"; "write"];
                 ttl_minutes := 10 |} in
  let req := request_of clock_ms random_suffix self "/api/generate-token" "POST"
               (Some (PyDict (token_request_body self opts expires_at))) w in
  py_truthy agent_token = false ->
  isoformat_in w (ttl_minutes opts * 60) = Return expires_at ->
  transport w req = Responded r ->
  is_success r = true ->
  resp_json r = Return (PyDict kv) ->
  dict_lookup "agent_token" kv = Some (PyStr t) ->
  issued_before clock_ms b64decode_decode json_loads (log_request req w) t age_ms ->
  (inject_Z max_token_age_ms < age_ms)%Q ->
  proxy transport clock_ms random_suffix random_random isoformat_in
    b64decode_decode json_loads json_dumps proxy_response_data
    self tool action params agent_token override w
  = (Raise (GatewayExn (GatewayTokenError
              (PyStr "Token is too old (older than 24h)") None)),
     {| sent := sent w ++ [req]; slept := slept w; printed := printed w |}).
Proof.
  intros opts req Hf Hiso Ht Hs Hj Hk Hissued Hold.
  pose proof (get_token_success self opts w expires_at r kv Hiso Ht Hs Hj) as Hget.
  rewrite Hk in Hget.
  destruct Hissued as (iat & Hiat & Hage).
  rewrite (proxy_fetch_then self tool action params override agent_token (PyStr t)
             w (log_request req w) Hf Hget
             (ClientTheory.embedded_iat_truthy b64decode_decode json_loads t iat Hiat)).
  apply (ClientTheory.proxy_rejects_stale transport clock_ms random_suffix
           random_random isoformat_in b64decode_decode json_loads json_dumps
           proxy_response_data self tool action params override t
           (log_request req w) age_ms); [|exact Hold].
  exists iat. split; assumption.
Qed.

(** X17.  When the gateway answers the proxy request with a success, [proxy]
    returns the [data] of the validated envelope after that single request and
    prints the rotation notice exactly when the response has
    [X-Token-Rotation-Recommended: true]; an envelope that fails validation
    raises the validation error, with nothing printed and no second request. *)
Theorem proxy_success (self : GatewayClient) (tool action : string)
    (params override token : PyVal) (w : World) (r : Response) (j : PyVal) :
  let req := request_of clock_ms random_suffix self "/api/proxy-request" "POST"
               (Some (PyDict (proxy_body json_dumps self tool action params
                                token override))) w in
  py_truthy token = true ->
  (_get_token_age clock_ms b64decode_decode json_loads w token
   <= inject_Z max_token_age_ms)%Q ->
  transport w req = Responded r ->
  is_success r = true ->
  resp_json r = Return j ->
  proxy transport clock_ms random_suffix random_random isoformat_in
    b64decode_decode json_loads json_dumps proxy_response_data
    self tool action params token override w
  = (proxy_response_data j,
     {| sent := sent w ++ [req]; slept := slept w;
        printed := printed w ++ match proxy_response_data j with
                                | Return _ => rotation_notice r
                                | Raise _ => []
                                end |}).
Proof.
  intros req Ht Hage Htr Hs Hj.
  rewrite (proxy_fresh _ _ _ _ _ _ _ Ht Hage).
  rewrite (make_request_success _ _ _ _ _ _ Htr Hs). rewrite Hj.
  destruct (proxy_response_data j); [reflexivity|].
  unfold log_request. simpl. rewrite app_nil_r. reflexivity.
Qed.

Lemma proxy_async_sent (self : GatewayClient) (tool action : string)
    (params token : PyVal) (w : World) :
  py_truthy token = true ->
  exists n,
    (1 <= n <= 4)%nat /\
    sent (snd (proxy_async transport clock_ms random_suffix random_random isoformat_in
                 self tool action params token w))
    = (sent w
       ++ repeat (request_of clock_ms random_suffix self "/api/proxy-request" "POST"
                    (Some (PyDict (proxy_async_body self tool action params token)))
                    w) n)%list.
Proof.
  intros Ht. unfold proxy_async, token_or_fetch. rewrite Ht. cbn [negb].
  unfold bind at 1. unfold ret at 1.
  fold (proxy_async_body self tool action params token).
  destruct (make_request_run self "/api/proxy-request" "POST"
              (Some (PyDict (proxy_async_body self tool action params token))) w)
    as (n & Hn & Hrun).
  exists n. split; [exact Hn|]. unfold bind at 1. rewrite Hrun.
  destruct (outcome _ _ _ _ _ _) as [response|e]; [|reflexivity].
  unfold bind, lift, ret. destruct (resp_json response) as [d|e]; [|reflexivity].
  destruct (py_getitem d "job_id"); reflexivity.
Qed.

(** X18.  After [set_intent(i)], every request [proxy_async] sends is the
    same POST to [<base_url>/api/proxy-request] whose body holds the token,
    tool, action and params given and [async: true]; it holds [intent: i]
    exactly when [i] is not empty, and never a [proof_payload]. *)
Theorem proxy_async_request (self : GatewayClient) (i tool action : string)
    (params token : PyVal) (w : World) :
  py_truthy token = true ->
  exists n body,
    (1 <= n <= 4)%nat /\
    sent (snd (proxy_async transport clock_ms random_suffix random_random isoformat_in
                 (set_intent self i) tool action params token w))
    = (sent w
       ++ repeat {| method := "POST";
                    url := base_url self ++ "/api/proxy-request";
                    json := Some (PyDict body);
                    headers := [("X-Correlation-Id",
                                 generate_correlation_id clock_ms random_suffix w)] |}
            n)%list /\
    dict_lookup "agent_token" body = Some token /\
    dict_lookup "tool" body = Some (PyStr tool) /\
    dict_lookup "action" body = Some (PyStr action) /\
    dict_lookup "params" body = Some params /\
    dict_lookup "async" body = Some (PyBool true) /\
    dict_lookup "intent" body
    = match i with EmptyString => None | _ => Some (PyStr i) end /\
    dict_lookup "proof_payload" body = None.
Proof.
  intros Ht.
  destruct (proxy_async_sent (set_intent self i) tool action params token w Ht)
    as (n & Hn & Hs).
  exists n, (proxy_async_body (set_intent self i) tool action params token).
  split; [exact Hn|]. split; [exact Hs|].
  unfold proxy_async_body. cbn [set_intent current_intent].
  destruct i; repeat split; reflexivity.
Qed.

(** X19.  Every request [proxy] sends for a token it accepts is the same POST
    to [<base_url>/api/proxy-request]; its body holds the token, tool, action
    and params, [intent] exactly when the current intent is not empty, and
    [proof_payload] (the override serialised to a JSON string) exactly when
    the override is true as Python sees it, so an empty override is dropped;
    it never holds [async]. *)
Theorem proxy_request (self : GatewayClient) (tool action : string)
    (params override token : PyVal) (w : World) :
  py_truthy token = true ->
  (_get_token_age clock_ms b64decode_decode json_loads w token
   <= inject_Z max_token_age_ms)%Q ->
  exists n body,
    (1 <= n <= 4)%nat /\
    sent (snd (proxy transport clock_ms random_suffix random_random isoformat_in
                 b64decode_decode json_loads json_dumps proxy_response_data
                 self tool action params token override w))
    = (sent w
       ++ repeat {| method := "POST";
                    url := base_url self ++ "/api/proxy-request";
                    json := Some (PyDict body);
                    headers := [("X-Correlation-Id",
                                 generate_correlation_id clock_ms random_suffix w)] |}
            n)%list /\
    dict_lookup "agent_token" body = Some token /\
    dict_lookup "tool" body = Some (PyStr tool) /\
    dict_lookup "action" body = Some (PyStr action) /\
    dict_lookup "params" body = Some params /\
    dict_lookup "intent" body
    = match current_intent self with EmptyString => None | i => Some (PyStr i) end /\
    dict_lookup "proof_payload" body
    = (if py_truthy override then Some (PyStr (json_dumps override)) else None) /\
    dict_lookup "async" body = None.
Proof.
  intros Ht Hage. rewrite (proxy_fresh _ _ _ _ _ _ _ Ht Hage).
  destruct (make_request_run self "/api/proxy-request" "POST"
              (Some (PyDict (proxy_body json_dumps self tool action params
                               token override))) w) as (n & Hn & Hrun).
  exists n, (proxy_body json_dumps self tool action params token override).
  split; [exact Hn|]. split.
  - rewrite Hrun.
    destruct (outcome _ _ _ _ _ _) as [response|e]; [|reflexivity].
    destruct (resp_json response) as [j|e]; [|reflexivity].
    destruct (proxy_response_data j); reflexivity.
  - unfold proxy_body.
    destruct (current_intent self), (py_truthy override); repeat split; reflexivity.
Qed.

(** X22.  When the gateway answers with a success, [get_job] returns the
    validated job after a single GET to [<base_url>/api/jobs/<job_id>] that
    carries no body (so no token either); a response that fails validation
    raises as it is, with no retry. *)
Theorem get_job_success (self : GatewayClient) (job_id : string) (w : World)
    (r : Response) (j : PyVal) :
  let req := {| method := "GET"; url := base_url self ++ "/api/jobs/" ++ job_id;
                json := None;
                headers := [("X-Correlation-Id",
                             generate_correlation_id clock_ms random_suffix w)] |} in
  transport w req = Responded r ->
  is_success r = true ->
  resp_json r = Return j ->
  get_job transport clock_ms random_suffix random_random job_response self job_id w
  = (job_response j,
     {| sent := sent w ++ [req]; slept := slept w; printed := printed w |}).
Proof.
  intros req Ht Hs Hj. unfold get_job. unfold bind at 1.
  rewrite (make_request_success self ("/api/jobs/" ++ job_id) "GET" None w r Ht Hs).
  unfold bind, lift. rewrite Hj. destruct (job_response j); reflexivity.
Qed.

End Environment.

Import Mock.

Lemma make_request_transport_down_witness :
  _make_request mock_transport_down mock_clock_ms mock_random_suffix
    mock_random_random mock_client "/api/jobs/7" "GET" None empty_world
  = (Raise (GatewayExn (GatewayErrorBase (PyStr "Network error: timed out") None
                          (Some "NETWORK_ERROR"))),
     after_attempts (request_of mock_clock_ms mock_random_suffix mock_client
                       "/api/jobs/7" "GET" None empty_world)
       (mock_random_random empty_world) 4 empty_world).
Proof.
  apply (make_request_transport_down mock_transport_down mock_clock_ms
           mock_random_suffix mock_random_random mock_client "/api/jobs/7" "GET"
           None empty_world "timed out").
  - intros w' req'. exists "timed out". reflexivity.
  - reflexivity.
Defined.

Lemma make_request_error_response_witness :
  _make_request (mock_transport_status 503) mock_clock_ms mock_random_suffix
    mock_random_random mock_client "/api/jobs/7" "GET" None empty_world
  = (Raise (GatewayExn (GatewayUpstreamError (PyStr "Unknown error") (Some 503%Z))),
     after_attempts (request_of mock_clock_ms mock_random_suffix mock_client
                       "/api/jobs/7" "GET" None empty_world)
       (mock_random_random empty_world) 4 empty_world).
Proof.
  apply (make_request_error_response (mock_transport_status 503) mock_clock_ms
           mock_random_suffix mock_random_random mock_client "/api/jobs/7" "GET"
           None empty_world
           {| resp_status_code := 503; resp_content := EmptyString;
              resp_headers_get := fun _ => None;
              resp_json := Raise (OtherExn "JSONDecodeError") |}
           (PyStr "Unknown error")
           (GatewayUpstreamError (PyStr "Unknown error") (Some 503%Z)));
    intros; reflexivity.
Defined.

Lemma proxy_sends_token_up_to_24h_witness :
  exists n body,
    (1 <= n <= 4)%nat /\
    dict_lookup "agent_token" body = Some (PyStr stale_token) /\
    sent (snd (proxy mock_transport mock_clock_24h mock_random_suffix
                 mock_random_random mock_isoformat_in mock_b64decode_decode
                 mock_json_loads mock_json_dumps mock_proxy_response_data
                 mock_client "search" "query" (PyDict []) (PyStr stale_token)
                 PyNone empty_world))
    = (sent empty_world
       ++ repeat (request_of mock_clock_24h mock_random_suffix mock_client
                    "/api/proxy-request" "POST" (Some (PyDict body)) empty_world)
            n)%list.
Proof.
  apply (proxy_sends_token_up_to_24h mock_transport mock_clock_24h mock_random_suffix
           mock_random_random mock_isoformat_in mock_b64decode_decode mock_json_loads
           mock_json_dumps mock_proxy_response_data mock_client "search" "query"
           (PyDict []) PyNone stale_token empty_world
           (inject_Z (24 * 60 * 60 * 1000))).
  - exists 0%Q. split; reflexivity.
  - discriminate.
Defined.

Lemma proxy_sends_undatable_token_witness :
  exists n body,
    (1 <= n <= 4)%nat /\
    dict_lookup "agent_token" body = Some (PyStr "opaque-token") /\
    sent (snd (proxy mock_transport mock_clock_ms mock_random_suffix
                 mock_random_random mock_isoformat_in mock_b64decode_decode
                 mock_json_loads mock_json_dumps mock_proxy_response_data
                 mock_client "search" "query" (PyDict []) (PyStr "opaque-token")
                 PyNone empty_world))
    = (sent empty_world
       ++ repeat (request_of mock_clock_ms mock_random_suffix mock_client
                    "/api/proxy-request" "POST" (Some (PyDict body)) empty_world)
            n)%list.
Proof.
  apply (proxy_sends_undatable_token mock_transport mock_clock_ms mock_random_suffix
           mock_random_random mock_isoformat_in mock_b64decode_decode mock_json_loads
           mock_json_dumps mock_proxy_response_data mock_client "search" "query"
           (PyDict []) PyNone "opaque-token" empty_world).
  - discriminate.
  - left. reflexivity.
Defined.

Lemma get_token_reads_agent_token_witness :
  fst (get_token mock_transport_token mock_clock_ms mock_random_suffix
         mock_random_random mock_isoformat_in mock_client
         {| tools := ["search"]; permissions := ["read"]; ttl_minutes := 15 |}
         empty_world)
  = Return (PyStr stale_token) /\
  get_token mock_transport_token mock_clock_ms mock_random_suffix
    mock_random_random mock_isoformat_in mock_client
    {| tools := ["search"]; permissions := ["read"];
       ttl_minutes := 10000000000 |} empty_world
  = (Raise (OtherExn "ValueError"), empty_world).
Proof.
  split.
  - rewrite (proj1 (proj2 (get_token_reads_agent_token mock_transport_token
                             mock_clock_ms mock_random_suffix mock_random_random
                             mock_isoformat_in mock_client
                             {| tools := ["search"]; permissions := ["read"];
                                ttl_minutes := 15 |} empty_world)
                      "1970-01-02T01:10:00" token_response
                      [("agent_token", PyStr stale_token)]
                      eq_refl eq_refl eq_refl eq_refl)).
    reflexivity.
  - apply (proj1 (get_token_reads_agent_token mock_transport_token
                    mock_clock_ms mock_random_suffix mock_random_random
                    mock_isoformat_in mock_client
                    {| tools := ["search"]; permissions := ["read"];
                       ttl_minutes := 10000000000 |} empty_world)).
    reflexivity.
Defined.

Lemma proxy_without_token_fetches_witness :
  proxy mock_transport_token mock_clock_24h mock_random_suffix mock_random_random
    mock_isoformat_in mock_b64decode_decode mock_json_loads mock_json_dumps
    mock_proxy_response_data mock_client "search" "query" (PyDict []) PyNone PyNone
    empty_world
  = proxy mock_transport_token mock_clock_24h mock_random_suffix mock_random_random
      mock_isoformat_in mock_b64decode_decode mock_json_loads mock_json_dumps
      mock_proxy_response_data mock_client "search" "query" (PyDict [])
      (PyStr stale_token) PyNone
      (snd (get_token mock_transport_token mock_clock_24h mock_random_suffix
              mock_random_random mock_isoformat_in mock_client
              {| tools := ["search"]; permissions := ["read"; "write"];
                 ttl_minutes := 10 |} empty_world)).
Proof.
  apply (proj2 (proxy_without_token_fetches mock_transport_token mock_clock_24h
                  mock_random_suffix mock_random_random mock_isoformat_in
                  mock_b64decode_decode mock_json_loads mock_json_dumps
                  mock_proxy_response_data mock_client "search" "query" (PyDict [])
                  PyNone PyNone empty_world eq_refl) (PyStr stale_token));
    reflexivity.
Defined.

Lemma proxy_rejects_stale_fetched_token_witness :
  fst (proxy mock_transport_token mock_clock_ms mock_random_suffix mock_random_random
         mock_isoformat_in mock_b64decode_decode mock_json_loads mock_json_dumps
         mock_proxy_response_data mock_client "search" "query" (PyDict []) PyNone
         PyNone empty_world)
  = Raise (GatewayExn (GatewayTokenError
             (PyStr "Token is too old (older than 24h)") None)).
Proof.
  rewrite (proxy_rejects_stale_fetched_token mock_transport_token mock_clock_ms
             mock_random_suffix mock_random_random mock_isoformat_in
             mock_b64decode_decode mock_json_loads mock_json_dumps
             mock_proxy_response_data mock_client "search" "query" (PyDict [])
             PyNone PyNone empty_world "1970-01-02T01:10:00" token_response
             [("agent_token", PyStr stale_token)] stale_token
             (inject_Z (25 * 60 * 60 * 1000))
             eq_refl eq_refl eq_refl eq_refl eq_refl eq_refl).
  - reflexivity.
  - exists 0%Q. split; reflexivity.
  - reflexivity.
Defined.

Lemma proxy_success_witness :
  let out := proxy mock_transport_rotation mock_clock_ms mock_random_suffix
               mock_random_random mock_isoformat_in mock_b64decode_decode
               mock_json_loads mock_json_dumps mock_proxy_response_data mock_client
               "search" "query" (PyDict []) (PyStr "opaque-token") PyNone
               empty_world in
  fst out = Return (PyStr "done") /\
  printed (snd out) = ["Token rotation recommended! Expires: None"].
Proof.
  cbv zeta.
  rewrite (proxy_success mock_transport_rotation mock_clock_ms mock_random_suffix
             mock_random_random mock_isoformat_in mock_b64decode_decode
             mock_json_loads mock_json_dumps mock_proxy_response_data mock_client
             "search" "query" (PyDict []) PyNone (PyStr "opaque-token") empty_world
             rotation_response
             (PyDict [("success", PyBool true); ("data", PyStr "done");
                      ("metadata", PyDict [])])
             eq_refl ltac:(discriminate) eq_refl eq_refl eq_refl).
  split; reflexivity.
Defined.

Lemma proxy_async_request_witness :
  exists n body,
    (1 <= n <= 4)%nat /\
    sent (snd (proxy_async mock_transport mock_clock_ms mock_random_suffix
                 mock_random_random mock_isoformat_in
                 (set_intent mock_client "lead_research") "search" "query"
                 (PyDict []) (PyStr stale_token) empty_world))
    = repeat {| method := "POST";
                url := "https://gateway.example/api/proxy-request";
                json := Some (PyDict body);
                headers := [("X-Correlation-Id",
                             generate_correlation_id mock_clock_ms mock_random_suffix
                               empty_world)] |} n /\
    dict_lookup "intent" body = Some (PyStr "lead_research").
Proof.
  destruct (proxy_async_request mock_transport mock_clock_ms mock_random_suffix
              mock_random_random mock_isoformat_in mock_client "lead_research"
              "search" "query" (PyDict []) (PyStr stale_token) empty_world eq_refl)
    as (n & body & Hn & Hs & _ & _ & _ & _ & _ & Hi & _).
  exists n, body. split; [exact Hn|]. split; [exact Hs | exact Hi].
Defined.

Lemma proxy_request_witness :
  exists n body,
    (1 <= n <= 4)%nat /\
    sent (snd (proxy mock_transport mock_clock_ms mock_random_suffix
                 mock_random_random mock_isoformat_in mock_b64decode_decode
                 mock_json_loads mock_json_dumps mock_proxy_response_data
                 mock_client "search" "query" (PyDict []) (PyStr "opaque-token")
                 (PyDict []) empty_world))
    = repeat {| method := "POST";
                url := "https://gateway.example/api/proxy-request";
                json := Some (PyDict body);
                headers := [("X-Correlation-Id",
                             generate_correlation_id mock_clock_ms mock_random_suffix
                               empty_world)] |} n /\
    dict_lookup "proof_payload" body = None.
Proof.
  destruct (proxy_request mock_transport mock_clock_ms mock_random_suffix
              mock_random_random mock_isoformat_in mock_b64decode_decode
              mock_json_loads mock_json_dumps mock_proxy_response_data mock_client
              "search" "query" (PyDict []) (PyDict []) (PyStr "opaque-token")
              empty_world eq_refl ltac:(discriminate))
    as (n & body & Hn & Hs & _ & _ & _ & _ & _ & Hp & _).
  exists n, body. split; [exact Hn|]. split; [exact Hs | exact Hp].
Defined.

Lemma get_job_success_witness :
  get_job mock_transport mock_clock_ms mock_random_suffix mock_random_random
    (fun j => py_getitem j "job_id") mock_client "7" empty_world
  = (Return (PyStr "job-1"),
     {| sent := [{| method := "GET"; url := "https://gateway.example/api/jobs/7";
                    json := None;
                    headers := [("X-Correlation-Id",
                                 generate_correlation_id mock_clock_ms
                                   mock_random_suffix empty_world)] |}];
        slept := []; printed := [] |}).
Proof.
  apply (get_job_success mock_transport mock_clock_ms mock_random_suffix
           mock_random_random (fun j => py_getitem j "job_id") mock_client "7"
           empty_world
           {| resp_status_code := 200; resp_content := "{...}";
              resp_headers_get := fun _ => None;
              resp_json := Return (PyDict [("job_id", PyStr "job-1");
                                           ("success", PyBool true);
                                           ("data", PyStr "done");
                                           ("metadata", PyDict [])]) |}
           (PyDict [("job_id", PyStr "job-1"); ("success", PyBool true);
                    ("data", PyStr "done"); ("metadata", PyDict [])]));
    reflexivity.
Defined.

(** *** [_mask_params] *)





(** *** [__init__] *)

Lemma rstrip_char_split (c : ascii) (s : string) :
  (exists k, s = rstrip_char c s ++ repeat_char c k) /\
  (forall p, rstrip_char c s <> p ++ String c EmptyString).
Proof.
  induction s as [|a r [[k Hk] Hend]].
  - split; [exists 0%nat; reflexivity|]. intros [|b p]; discriminate.
  - cbn [rstrip_char]. destruct (rstrip_char c r) as [|b r'] eqn:E.
    + destruct (Ascii.eqb_spec a c) as [->|Hne].
      * split; [exists (Datatypes.S k); simpl in *; now rewrite <- Hk|].
        intros [|b p]; discriminate.
      * split; [exists k; simpl in *; now rewrite <- Hk|].
        intros [|b [|b' p]]; simpl; try congruence; discriminate.
    + split; [exists k; simpl in *; now rewrite <- Hk|].
      intros [|b' p] Hp; simpl in Hp; [destruct r'; discriminate|].
      injection Hp as _ Hp. exact (Hend p Hp).
Qed.

(** X21.  A client is built with the base URL stripped of all its trailing
    slashes and of nothing else, so that [base_url + path] never doubles the
    slash at the joint; its current intent starts as the default intent, or
    empty without one. *)
Theorem init_strips_trailing_slashes
    (base agent key : string) (default : option string) (timeout : Z) :
  let self := __init__ base agent key default timeout in
  (exists k, base = base_url self ++ repeat_char "/" k) /\
  (forall p, base_url self <> p ++ "/") /\
  current_intent self = match default with Some i => i | None => EmptyString end.
Proof.
  intros self. subst self. cbn [__init__ base_url current_intent].
  destruct (rstrip_char_split "/" base) as [Hk Hend].
  split; [exact Hk|]. split; [exact Hend | reflexivity].
Qed.

End ClientMore.
